(** * ClearML example notebooks: syntax, kernel semantics and properties

    The repository consists of two Jupyter notebooks,
    [examples/frameworks/matplotlib/jupyter_matplotlib_example.ipynb]
    and [examples/frameworks/huggingface/transformers.ipynb].  Each code
    cell is a straight-line IPython script.  This development embeds the
    cells statement by statement, gives them a state-passing semantics
    in which every call into an external library is an event decided by
    an arbitrary oracle, and proves the properties of the notebooks
    against that embedding. *)

From Stdlib Require Import Ascii String ZArith List.
From stdpp Require Import gmap strings list.

Local Open Scope string_scope.
Local Open Scope Z_scope.
Local Open Scope list_scope.
Local Set Warnings "-register-all".

(** ** Abstract syntax of the IPython cells *)

Inductive binop := Mul | Pow.

Inductive expr :=
| EName (x : string)                      (* x *)
| EStr (s : string)                       (* 'text' *)
| EInt (n : Z)                            (* 30 *)
| EFloat (lit : string)                   (* 0.5, 2e-5: kept as written *)
| EBool (b : bool)                        (* True, False *)
| EList (items : list expr)               (* [a, b] *)
| EAttr (e : expr) (a : string)           (* e.a *)
| ESubscript (e idx : expr)               (* e[idx] *)
| EBinOp (op : binop) (l r : expr)        (* l * r, l ** r *)
| ECall (f : expr) (args : list expr) (kwargs : list (string * expr))
| EAwait (e : expr).                      (* await e *)

Inductive stmt :=
| SComment (text : string)                (* # text *)
| SShell (cmd : string)                   (* !cmd *)
| SEnvMagic (param : string)              (* %env param *)
| SImportAs (module alias : string)       (* import module as alias *)
| SFromImport (module : string) (names : list string)
| SAssign (target : string) (rhs : expr)  (* target = rhs *)
| SExpr (e : expr)                        (* e *)
| SDef (async : bool) (name : string) (params : list string) (body : list stmt)
| SReturn (e : expr)
| STry (body handler : list stmt).        (* try: body  except Exception: handler *)

Inductive cell :=
| Markdown (heading : string)
| Code (source : list stmt).

Definition notebook := list cell.

(** The double-quote character, for comments of the source that quote
    a word. *)
Definition dq : string := String (Ascii.ascii_of_nat 34) EmptyString.

(** Shorthands for the shapes that recur in the cells. *)
Definition attr2 (m a : string) : expr := EAttr (EName m) a.
Definition call (f : expr) (args : list expr) : expr := ECall f args [].
Definition np_random_rand (n : expr) : expr :=
  call (EAttr (attr2 "np" "random") "rand") [n].
Definition plt_show : stmt := SExpr (call (attr2 "plt" "show") []).
Definition np_eye_256 : expr :=
  ECall (attr2 "np" "eye") [EInt 256; EInt 256] [("dtype", attr2 "np" "uint8")].

(** ** The matplotlib notebook (src/unnamed/part_000) *)

Definition mpl_install_clearml : list stmt :=
  [ SComment "If you don't have ClearML installed then uncomment this line";
    SComment "!pip install clearml" ].

Definition mpl_install_seaborn : list stmt :=
  [ SShell "pip install seaborn" ].

Definition mpl_init : list stmt :=
  [ SImportAs "matplotlib.pyplot" "plt";
    SImportAs "numpy" "np";
    SImportAs "seaborn" "sns";
    SFromImport "clearml" ["Task"];
    SComment "Start a new task";
    SAssign "task"
      (ECall (attr2 "Task" "init") []
         [("project_name", EStr "Colab notebooks");
          ("task_name", EStr "Matplotlib example")]) ].

Definition mpl_scatter : list stmt :=
  [ SComment "create plot";
    SAssign "N" (EInt 50);
    SAssign "x" (np_random_rand (EName "N"));
    SAssign "y" (np_random_rand (EName "N"));
    SAssign "colors" (np_random_rand (EName "N"));
    (* trailing comment in the source: 0 to 15 point radii *)
    SAssign "area"
      (EBinOp Pow (EBinOp Mul (EInt 30) (np_random_rand (EName "N"))) (EInt 2));
    SExpr (ECall (attr2 "plt" "scatter") [EName "x"; EName "y"]
             [("s", EName "area"); ("c", EName "colors"); ("alpha", EFloat "0.5")]);
    plt_show ].

Definition mpl_line : list stmt :=
  [ SComment "create another plot - with a name";
    SAssign "x" (call (attr2 "np" "linspace") [EInt 0; EInt 10; EInt 30]);
    SAssign "y" (call (attr2 "np" "sin") [EName "x"]);
    SExpr (ECall (attr2 "plt" "plot") [EName "x"; EName "y"; EStr "o"]
             [("color", EStr "pink")]);
    plt_show ].

Definition mpl_image : list stmt :=
  [ SComment "create unitlted image plot";
    SAssign "m" np_eye_256;
    SExpr (call (attr2 "plt" "imshow") [EName "m"]);
    plt_show ].

Definition mpl_image_titled : list stmt :=
  [ SComment "create image plot - with a name";
    SAssign "m" np_eye_256;
    SExpr (call (attr2 "plt" "imshow") [EName "m"]);
    SExpr (call (attr2 "plt" "title") [EStr "Image Title"]);
    plt_show ].

Definition mpl_savefig : list stmt :=
  [ SComment "create plot with savefig";
    SAssign "N" (EInt 10);
    SAssign "x" (np_random_rand (EName "N"));
    SAssign "y" (np_random_rand (EName "N"));
    SAssign "colors" (np_random_rand (EName "N"));
    SAssign "area"
      (EBinOp Pow (EBinOp Mul (EInt 30) (np_random_rand (EName "N"))) (EInt 2));
    SExpr (call (attr2 "plt" "title") [EStr "savefig Image"]);
    SExpr (ECall (attr2 "plt" "scatter") [EName "x"; EName "y"]
             [("s", EName "area"); ("c", EName "colors"); ("alpha", EFloat "0.5")]);
    SExpr (call (attr2 "plt" "savefig") [EStr "plot.png"]) ].

Definition mpl_seaborn : list stmt :=
  [ SExpr (ECall (attr2 "sns" "set") [] [("style", EStr "darkgrid")]);
    SComment "Load an example dataset with long-form data";
    SAssign "fmri" (call (attr2 "sns" "load_dataset") [EStr "fmri"]);
    SComment "Plot the responses for different events and regions";
    SExpr (ECall (attr2 "sns" "lineplot") []
             [("x", EStr "timepoint"); ("y", EStr "signal");
              ("hue", EStr "region"); ("style", EStr "event");
              ("data", EName "fmri")]);
    plt_show ].

Definition matplotlib_nb : notebook :=
  [ Markdown "# Allegro ClearML matplotlib example";   (* 0 *)
    Code mpl_install_clearml;                          (* 1 *)
    Code mpl_install_seaborn;                          (* 2 *)
    Markdown "## Create a new task.";                  (* 3 *)
    Code mpl_init;                                     (* 4 *)
    Markdown "## Matplotlib support";                  (* 5 *)
    Code mpl_scatter;                                  (* 6 *)
    Code mpl_line;                                     (* 7 *)
    Markdown "By calling the `imshow` method, ClearML automatically reports plot images in Results tab.";  (* 8 *)
    Code mpl_image;                                    (* 9 *)
    Code mpl_image_titled;                             (* 10 *)
    Code mpl_savefig;                                  (* 11 *)
    Markdown "## Seaborn support";                     (* 12 *)
    Code mpl_seaborn ].                                (* 13 *)

(** ** The transformers notebook
    (src/examples/frameworks/huggingface/transformers.ipynb) *)

Definition hf_credentials : list stmt :=
  [ SComment "ClearML credentials";
    SEnvMagic "CLEARML_WEB_HOST=";
    SEnvMagic "CLEARML_API_HOST=";
    SEnvMagic "CLEARML_FILES_HOST=";
    SEnvMagic "CLEARML_API_ACCESS_KEY=";
    SEnvMagic "CLEARML_API_SECRET_KEY=" ].

Definition hf_log_model : list stmt :=
  [ SComment "Set to true so ClearML will log the models created by the trainer";
    SEnvMagic "CLEARML_LOG_MODEL=True";
    SComment ("Set the ClearML task name (default " +:+ dq +:+ "Trainer" +:+ dq +:+ ")");
    SComment "%env CLEARML_TASK=";
    SComment ("Set task's project (default " +:+ dq +:+ "HuggingFace Transformers" +:+ dq +:+ ")");
    SComment "%env CLEARML_PROJECT=" ].

Definition hf_install : list stmt :=
  [ SComment "ClearML installation";
    SShell " pip install clearml";
    SComment "Transformers installation";
    SShell " pip install transformers[torch] datasets";
    SShell "pip install accelerate -U" ].

Definition hf_model : list stmt :=
  [ SFromImport "transformers" ["AutoModelForSequenceClassification"];
    SAssign "model"
      (call (attr2 "AutoModelForSequenceClassification" "from_pretrained")
            [EStr "distilbert-base-uncased"]) ].

Definition hf_training_args : list stmt :=
  [ SFromImport "transformers" ["TrainingArguments"];
    SAssign "training_args"
      (ECall (EName "TrainingArguments") []
         [("output_dir", EStr "path/to/save/folder/");
          ("learning_rate", EFloat "2e-5");
          ("per_device_train_batch_size", EInt 8);
          ("per_device_eval_batch_size", EInt 8);
          ("num_train_epochs", EInt 2);
          ("report_to", EList [EStr "clearml"])]) ].

Definition hf_tokenizer : list stmt :=
  [ SFromImport "transformers" ["AutoTokenizer"];
    SAssign "tokenizer"
      (call (attr2 "AutoTokenizer" "from_pretrained") [EStr "distilbert-base-uncased"]) ].

Definition hf_dataset : list stmt :=
  [ SFromImport "datasets" ["load_dataset"];
    (* trailing comment in the source: doctest: +IGNORE_RESULT *)
    SAssign "dataset" (call (EName "load_dataset") [EStr "rotten_tomatoes"]) ].

Definition hf_tokenize : list stmt :=
  [ SDef false "tokenize_dataset" ["dataset"]
      [ SReturn (call (EName "tokenizer") [ESubscript (EName "dataset") (EStr "text")]) ];
    SAssign "dataset"
      (ECall (attr2 "dataset" "map") [EName "tokenize_dataset"]
         [("batched", EBool true)]) ].

Definition hf_collator : list stmt :=
  [ SFromImport "transformers" ["DataCollatorWithPadding"];
    SAssign "data_collator"
      (ECall (EName "DataCollatorWithPadding") [] [("tokenizer", EName "tokenizer")]) ].

Definition hf_trainer : list stmt :=
  [ SFromImport "transformers" ["Trainer"];
    SAssign "trainer"
      (ECall (EName "Trainer") []
         [("model", EName "model");
          ("args", EName "training_args");
          ("train_dataset", ESubscript (EName "dataset") (EStr "train"));
          ("eval_dataset", ESubscript (EName "dataset") (EStr "test"));
          ("tokenizer", EName "tokenizer");
          ("data_collator", EName "data_collator")]) ].

Definition hf_train : list stmt :=
  [ SExpr (call (attr2 "trainer" "train") []) ].

Definition transformers_nb : notebook :=
  [ Markdown "# HuggingFace Transformers";                               (* 0 *)
    Markdown "## Set up ClearML";                                        (* 1 *)
    Code hf_credentials;                                                 (* 2 *)
    Code hf_log_model;                                                   (* 3 *)
    Markdown "## Set up Environment";                                    (* 4 *)
    Code hf_install;                                                     (* 5 *)
    Markdown "## Create Trainer - a PyTorch optimized training loop";    (* 6 *)
    Markdown "Create a trainer, in which you'll typically pass the following parameters";  (* 7 *)
    Code hf_model;                                                       (* 8 *)
    Markdown "2. TrainingArguments";                                     (* 9 *)
    Code hf_training_args;                                               (* 10 *)
    Markdown "3. A preprocessing class like a tokenizer";                (* 11 *)
    Code hf_tokenizer;                                                   (* 12 *)
    Markdown "4. Load a dataset:";                                       (* 13 *)
    Code hf_dataset;                                                     (* 14 *)
    Markdown "5. Create a function to tokenize the dataset";             (* 15 *)
    Code hf_tokenize;                                                    (* 16 *)
    Markdown "6. A DataCollatorWithPadding";                             (* 17 *)
    Code hf_collator;                                                    (* 18 *)
    Markdown "Now gather all these classes in Trainer:";                 (* 19 *)
    Code hf_trainer;                                                     (* 20 *)
    Markdown "## Start Training";                                        (* 21 *)
    Code hf_train;                                                       (* 22 *)
    Markdown "Since `clearml` is installed, the trainer will use the ClearMLCallback" ].  (* 23 *)

Definition notebooks : list notebook := [matplotlib_nb; transformers_nb].

(** ** Values, events and kernel state *)

(** Objects of the external libraries are opaque: a call returns a fresh
    object identifier.  Modules and their attributes are kept as paths,
    so that an event shows which library entry point was called; the
    library resolves the path when the value is used in an event. *)
Inductive val :=
| VNone
| VBool (b : bool)
| VInt (n : Z)
| VFloat (lit : string)
| VStr (s : string)
| VList (items : list val)
| VModule (name : string)
| VAttr (v : val) (a : string)
| VObj (id : nat)
| VFunc (name : string).

(** What the kernel does that is visible outside the notebook. *)
Inductive event :=
| EvShell (cmd : string)
| EvSetEnv (var value : string)
| EvGetEnv (param : string)
| EvImport (module : string)
| EvCall (result : nat) (callee : val) (args : list val) (kwargs : list (string * val))
| EvBinOp (result : nat) (op : binop) (l r : val)
| EvSubscript (result : nat) (v idx : val)
| EvAwait (result : nat) (v : val).

(** Events that run code of an external library, which may raise.  A
    shell escape returns an exit status and never raises; [%env] is
    the kernel's own. *)
Definition consults (ev : event) : bool :=
  match ev with
  | EvShell _ | EvSetEnv _ _ | EvGetEnv _ => false
  | _ => true
  end.

(** The state holds what the statements of the notebook themselves do:
    the bindings of its names, its writes to the environment, the
    events.  What a library does inside a call is the oracle's, and of
    that the state records the event only: a library that changes
    [os.environ] or the disk while it runs (ClearML's [Task.init] adds
    variables of its own) is not followed.  So [environ] is the
    environment as the kernel found it and the [%env] lines of the
    notebook changed it; it is [os.environ] itself up to the first
    event that runs library code. *)
Record state := mkState {
  vars : gmap string val;          (* the notebook's global namespace *)
  environ : gmap string string;    (* os.environ, as the notebook writes it *)
  next_id : nat;                   (* next fresh object identifier *)
  trace : list event               (* events so far, oldest first *)
}.

Definition initial_state (env0 : gmap string string) : state :=
  mkState ∅ env0 0%nat [].

(** ** The [%env] line magic

    [%env var=val] (or [%env var val]) sets a variable, [%env var]
    reads one, [%env] lists all.  The parameter is split at the first
    [=] when it has one, at the first blank otherwise; both parts are
    stripped; a variable name with whitespace is refused.  Whitespace
    is what Python's [str.strip] and the [\s] of [re] take in ASCII:
    the blank, the characters 9 to 13 and the separators 28 to 31. *)

Definition is_space (a : ascii) : bool :=
  let n := Ascii.nat_of_ascii a in
  (n =? 32)%nat || ((9 <=? n)%nat && (n <=? 13)%nat)
  || ((28 <=? n)%nat && (n <=? 31)%nat).

Fixpoint lstrip (s : string) : string :=
  match s with
  | EmptyString => EmptyString
  | String a s' => if is_space a then lstrip s' else s
  end.

Fixpoint rstrip (s : string) : string :=
  match s with
  | EmptyString => EmptyString
  | String a s' =>
      match rstrip s' with
      | EmptyString => if is_space a then EmptyString else String a EmptyString
      | r => String a r
      end
  end.

Definition strip (s : string) : string := lstrip (rstrip s).

Fixpoint contains (c : ascii) (s : string) : bool :=
  match s with
  | EmptyString => false
  | String a s' => if Ascii.eqb a c then true else contains c s'
  end.

Fixpoint any_space (s : string) : bool :=
  match s with
  | EmptyString => false
  | String a s' => is_space a || any_space s'
  end.

(** [split_once c s]: the parts before and after the first [c]. *)
Fixpoint split_once (c : ascii) (s : string) : option (string * string) :=
  match s with
  | EmptyString => None
  | String a s' =>
      if Ascii.eqb a c then Some (EmptyString, s')
      else match split_once c s' with
           | Some (l, r) => Some (String a l, r)
           | None => None
           end
  end.

Inductive env_request :=
| EnvList
| EnvGet (key : string)
| EnvSet (var value : string)
| EnvUsage (msg : string)
| EnvExpand.     (* $name or {expr} expansion: not modelled *)

Definition parse_env (param : string) : env_request :=
  if contains "$" param || contains "{" param then EnvExpand
  else match strip param with
  | EmptyString => EnvList
  | _ =>
      let sep : ascii := if contains "=" param then "="%char else " "%char in
      match split_once sep param with
      | None => EnvGet (strip param)
      | Some (var, value) =>
          if any_space (strip var)
          then EnvUsage "refusing to set env var with whitespace"
          else EnvSet (strip var) (strip value)
      end
  end.

(** ** The kernel monad: oracle, state, exceptions *)

Section Kernel.

Context {E : Type}.   (* exception values of the external libraries *)

Inductive exn :=
| NameError (name : string)
| TypeError (msg : string)
| UsageError (msg : string)
| External (x : E).

Inductive result (A : Type) :=
| Ok (a : A)
| Raise (e : exn)
| Stuck.          (* a construct outside the modelled fragment *)
Arguments Ok {A} a.
Arguments Raise {A} e.
Arguments Stuck {A}.

(** The oracle stands for the external libraries: given the events so
    far and the event attempted, it says whether the library raises. *)
Definition oracle := list event -> event -> option E.

Definition M (A : Type) := oracle -> state -> result A * state.

Definition ret {A} (a : A) : M A := fun _ st => (Ok a, st).

Definition bind {A B} (m : M A) (f : A -> M B) : M B :=
  fun O st =>
    match m O st with
    | (Ok a, st') => f a O st'
    | (Raise e, st') => (Raise e, st')
    | (Stuck, st') => (Stuck, st')
    end.

Definition raise {A} (e : exn) : M A := fun _ st => (Raise e, st).
Definition stuck {A} : M A := fun _ st => (Stuck, st).

(** [try: m  except Exception: h] *)
Definition catch {A} (m : M A) (h : M A) : M A :=
  fun O st =>
    match m O st with
    | (Raise _, st') => h O st'
    | r => r
    end.

Definition lookup_var (x : string) : M val :=
  fun _ st =>
    match vars st !! x with
    | Some v => (Ok v, st)
    | None => (Raise (NameError x), st)
    end.

Definition bind_var (x : string) (v : val) : M unit :=
  fun _ st =>
    (Ok tt, mkState (<[x := v]> (vars st)) (environ st) (next_id st) (trace st)).

Definition fresh_id : M nat :=
  fun _ st =>
    (Ok (next_id st), mkState (vars st) (environ st) (S (next_id st)) (trace st)).

(** An event that the kernel performs itself. *)
Definition log (ev : event) : M unit :=
  fun _ st =>
    (Ok tt, mkState (vars st) (environ st) (next_id st) (trace st ++ [ev])).

(** An event that runs library code: it is recorded, and the library
    may raise.  Whatever else the library does during the event stays
    inside the event. *)
Definition interact (ev : event) : M unit :=
  fun O st =>
    let st' := mkState (vars st) (environ st) (next_id st) (trace st ++ [ev]) in
    match O (trace st) ev with
    | Some x => (Raise (External x), st')
    | None => (Ok tt, st')
    end.

Definition set_environ (var value : string) : M unit :=
  fun _ st =>
    (Ok tt, mkState (vars st) (<[var := value]> (environ st)) (next_id st) (trace st)).

Definition get_environ (key : string) : M (option string) :=
  fun _ st => (Ok (environ st !! key), st).

End Kernel.

Arguments exn : clear implicits.
Arguments result : clear implicits.
Arguments oracle : clear implicits.
Arguments M : clear implicits.
Arguments Ok {E A} a.
Arguments Raise {E A} e.
Arguments Stuck {E A}.

Declare Scope kernel_scope.
Delimit Scope kernel_scope with kernel.
Notation "x <- m ;; k" := (bind m (fun x => k))
  (at level 100, m at next level, right associativity) : kernel_scope.
Notation "m ;;; k" := (bind m (fun _ => k))
  (at level 100, right associativity) : kernel_scope.
Local Open Scope kernel_scope.

(** ** Evaluation of expressions and execution of statements *)

Section Interp.

Context {E : Type}.

Fixpoint mapM {A B} (f : A -> M E B) (l : list A) : M E (list B) :=
  match l with
  | [] => ret []
  | a :: l' => b <- f a ;; bs <- mapM f l' ;; ret (b :: bs)
  end.

Fixpoint seqM {A} (f : A -> M E unit) (l : list A) : M E unit :=
  match l with
  | [] => ret tt
  | a :: l' => f a ;;; seqM f l'
  end.

(** Values whose operations are implemented by an external library. *)
Definition is_external (v : val) : bool :=
  match v with
  | VModule _ | VAttr _ _ | VObj _ => true
  | _ => false
  end.

(** The result of a library operation is a fresh opaque object. *)
Definition external (mk : nat -> event) : M E val :=
  i <- fresh_id ;; interact (mk i) ;;; ret (VObj i).

Definition apply_binop (op : binop) (l r : val) : M E val :=
  if is_external l || is_external r then external (fun i => EvBinOp i op l r)
  else match op, l, r with
       | Mul, VInt a, VInt b => ret (VInt (a * b))
       | Pow, VInt a, VInt b => if 0 <=? b then ret (VInt (a ^ b)) else stuck
       | _, _, _ => stuck
       end.

Definition apply_subscript (v idx : val) : M E val :=
  if is_external v then external (fun i => EvSubscript i v idx) else stuck.

(** A notebook-defined function is only ever handed to a library as a
    callback; calling it from the notebook itself is not modelled.  The
    calls that the library makes of a callback happen inside the event
    of the library call; what such a call does is [invoke] below. *)
Definition apply_call (f : val) (args : list val) (kwargs : list (string * val))
  : M E val :=
  match f with
  | VAttr _ _ | VObj _ => external (fun i => EvCall i f args kwargs)
  | VFunc _ => stuck
  | _ => raise (TypeError "object is not callable")
  end.

(** Python's order: the callee, the positional arguments from left to
    right, then the keyword arguments. *)
Fixpoint eval (e : expr) : M E val :=
  match e with
  | EName x => lookup_var x
  | EStr s => ret (VStr s)
  | EInt n => ret (VInt n)
  | EFloat lit => ret (VFloat lit)
  | EBool b => ret (VBool b)
  | EList items => vs <- mapM eval items ;; ret (VList vs)
  | EAttr e a => v <- eval e ;; ret (VAttr v a)
  | ESubscript e idx => v <- eval e ;; i <- eval idx ;; apply_subscript v i
  | EBinOp op l r => a <- eval l ;; b <- eval r ;; apply_binop op a b
  | ECall f args kwargs =>
      vf <- eval f ;;
      vargs <- mapM eval args ;;
      vkw <- mapM (fun kw => let '(k, a) := kw in v <- eval a ;; ret (k, v)) kwargs ;;
      apply_call vf vargs vkw
  | EAwait e => v <- eval e ;; external (fun i => EvAwait i v)
  end.

Definition env_magic (param : string) : M E unit :=
  match parse_env param with
  | EnvSet var value => set_environ var value ;;; log (EvSetEnv var value)
  | EnvGet key =>
      o <- get_environ key ;;
      match o with
      | Some _ => log (EvGetEnv key)
      | None => raise (UsageError "Environment does not have key")
      end
  | EnvList => log (EvGetEnv EmptyString)
  | EnvUsage msg => raise (UsageError msg)
  | EnvExpand => stuck
  end.

Definition import_names (module : string) (names : list string) : M E unit :=
  seqM (fun n => bind_var n (VAttr (VModule module) n)) names.

Fixpoint exec (s : stmt) : M E unit :=
  match s with
  | SComment _ => ret tt
  | SShell cmd => log (EvShell cmd)
  | SEnvMagic param => env_magic param
  | SImportAs module alias => interact (EvImport module) ;;; bind_var alias (VModule module)
  | SFromImport module names => interact (EvImport module) ;;; import_names module names
  | SAssign x rhs => v <- eval rhs ;; bind_var x v
  | SExpr e => _ <- eval e ;; ret tt
  | SDef _ name _ _ => bind_var name (VFunc name)
  | SReturn _ => stuck     (* 'return' outside function *)
  | STry body handler => catch (seqM exec body) (seqM exec handler)
  end.

Definition run_cell (c : cell) : M E unit :=
  match c with
  | Markdown _ => ret tt
  | Code source => seqM exec source
  end.

(** Run All: the cells in order, stopping at the first one that fails. *)
Definition run_notebook (nb : notebook) : M E unit := seqM run_cell nb.

End Interp.

(** The oracle under which no library call raises. *)
Definition no_fault {E} : oracle E := fun _ _ => None.

(** ** Syntactic checks on statements *)

(** An exception handler anywhere in the statement, function bodies
    included. *)
Fixpoint has_handler (s : stmt) : bool :=
  match s with
  | STry _ _ => true
  | SDef _ _ _ body => existsb has_handler body
  | _ => false
  end.

(** An [%env] line anywhere in the statement. *)
Fixpoint uses_env_magic (s : stmt) : bool :=
  match s with
  | SEnvMagic _ => true
  | SDef _ _ _ body => existsb uses_env_magic body
  | STry body handler => existsb uses_env_magic body || existsb uses_env_magic handler
  | _ => false
  end.

(** The statements whose execution stays within what [P] admits.
    The body of a [def] is not executed by the definition. *)
Fixpoint admissible (allow_env allow_try : bool) (s : stmt) : bool :=
  match s with
  | SEnvMagic _ => allow_env
  | STry body handler =>
      allow_try && forallb (admissible allow_env allow_try) body
      && forallb (admissible allow_env allow_try) handler
  | _ => true
  end.

Definition admissible_cell (allow_env allow_try : bool) (c : cell) : bool :=
  match c with
  | Markdown _ => true
  | Code source => forallb (admissible allow_env allow_try) source
  end.

(** ** Properties of computations *)

Section Properties.

Context {E : Type}.

(** [clean O h new]: no library raised during the events [new] that
    followed the history [h]. *)
Fixpoint clean (O : oracle E) (h new : list event) : Prop :=
  match new with
  | [] => True
  | ev :: rest => (consults ev = true → O h ev = None) ∧ clean O (h ++ [ev]) rest
  end.

(** What a result says about the events [new] that led to it: an
    external exception [x] is the answer of the oracle to the last
    event, and no library raised before; any other result means that
    no library raised at all. *)
Definition outcome_ok {A} (O : oracle E) (h : list event)
    (r : result E A) (new : list event) : Prop :=
  match r with
  | Raise (External x) =>
      ∃ pre ev, new = pre ++ [ev] ∧ clean O h pre ∧
                consults ev = true ∧ O (h ++ pre) ev = Some x
  | _ => clean O h new
  end.

Definition faithful (A : Type) (m : M E A) : Prop :=
  ∀ O st, ∃ new,
    trace (m O st).2 = trace st ++ new ∧
    outcome_ok O (trace st) (m O st).1 new.

(** The trace only grows; and under any oracle the computation either
    is the one without faults or stops at an external exception with a
    prefix of its events. *)
Definition grows (A : Type) (m : M E A) : Prop :=
  ∀ O st, trace st `prefix_of` trace (m O st).2.

Definition agrees (A : Type) (m : M E A) : Prop :=
  ∀ O st,
    m O st = m no_fault st ∨
    ((∃ x, (m O st).1 = Raise (External x)) ∧
     trace (m O st).2 `prefix_of` trace (m no_fault st).2).

Definition steady (A : Type) (m : M E A) : Prop := grows A m ∧ agrees A m.

End Properties.

Arguments faithful : clear implicits.
Arguments grows : clear implicits.
Arguments agrees : clear implicits.
Arguments steady : clear implicits.

(** ** Reading the notebooks *)

(** All sub-expressions, operands before the expression they belong to
    (the order in which their events happen). *)
Fixpoint subexprs (e : expr) : list expr :=
  match e with
  | EList items => flat_map subexprs items
  | EAttr e' _ => subexprs e'
  | ESubscript e' idx => subexprs e' ++ subexprs idx
  | EBinOp _ l r => subexprs l ++ subexprs r
  | ECall f args kwargs =>
      subexprs f ++ flat_map subexprs args
        ++ flat_map (λ kw, subexprs kw.2) kwargs
  | EAwait e' => subexprs e'
  | _ => []
  end ++ [e].

(** The expressions of a statement; with [deep], those inside the body
    of a function definition too (they run only when a library calls
    the function back). *)
Fixpoint stmt_exprs (deep : bool) (s : stmt) : list expr :=
  match s with
  | SAssign _ e | SExpr e | SReturn e => [e]
  | SDef _ _ _ body => if deep then flat_map (stmt_exprs deep) body else []
  | STry body handler =>
      flat_map (stmt_exprs deep) body ++ flat_map (stmt_exprs deep) handler
  | _ => []
  end.

Definition block_subexprs (deep : bool) (src : list stmt) : list expr :=
  flat_map subexprs (flat_map (stmt_exprs deep) src).

(** The code cells with their position in the notebook. *)
Definition code_cells (nb : notebook) : list (nat * list stmt) :=
  omap (λ ic, match ic.2 with Code src => Some (ic.1, src) | Markdown _ => None end)
       (imap (λ i c, (i, c)) nb).

Definition all_stmts (nb : notebook) : list stmt :=
  flat_map snd (code_cells nb).

(** [np.random.rand] *)
Fixpoint dotted (f : expr) : string :=
  match f with
  | EName x => x
  | EAttr e a => dotted e +:+ "." +:+ a
  | _ => "?"
  end.

Definition last_name (f : expr) : string :=
  match f with
  | EName x => x
  | EAttr _ a => a
  | _ => EmptyString
  end.

Definition callee_of (e : expr) : option expr :=
  match e with
  | ECall f _ _ => Some f
  | _ => None
  end.

(** The calls a cell makes when it runs, as dotted callee names. *)
Definition cell_calls (src : list stmt) : list string :=
  dotted <$> omap callee_of (block_subexprs false src).

(** The calls of a notebook with the index of their cell. *)
Definition notebook_calls (deep : bool) (nb : notebook) : list (nat * expr) :=
  flat_map (λ ic : nat * list stmt,
              (λ e, (ic.1, e)) <$> List.filter (λ e, bool_decide (is_Some (callee_of e)))
                                     (block_subexprs deep ic.2))
           (code_cells nb).

Definition in_list (w : string) (l : list string) : bool := bool_decide (w ∈ l).

Definition calls_named (names : list string) (deep : bool) (nb : notebook)
  : list (nat * expr) :=
  List.filter (λ ie, match callee_of ie.2 with
                     | Some f => in_list (last_name f) names
                     | None => false
                     end)
              (notebook_calls deep nb).

Definition assignments (src : list stmt) : list (string * expr) :=
  omap (λ s, match s with SAssign x e => Some (x, e) | _ => None end) src.

Definition shell_commands (nb : notebook) : list (nat * string) :=
  flat_map (λ ic : nat * list stmt,
              omap (λ s, match s with SShell c => Some (ic.1, c) | _ => None end) ic.2)
           (code_cells nb).

Definition env_lines (nb : notebook) : list (nat * string) :=
  flat_map (λ ic : nat * list stmt,
              omap (λ s, match s with SEnvMagic p => Some (ic.1, p) | _ => None end) ic.2)
           (code_cells nb).

(** A check on every statement of a cell. *)
Definition cell_forallb (f : stmt → bool) (c : cell) : bool :=
  match c with
  | Markdown _ => true
  | Code src => forallb f src
  end.

(** ** Vocabulary of the properties *)

Definition is_literal (e : expr) : bool :=
  match e with
  | EStr _ | EInt _ | EFloat _ | EBool _ => true
  | _ => false
  end.

Definition starts_with (p s : string) : bool := String.prefix p s.

(** *** Steps of a notebook *)

Inductive phase := Install | Configure | Construct | Run | Display.

Definition phase_eqb (p q : phase) : bool :=
  match p, q with
  | Install, Install | Configure, Configure | Construct, Construct
  | Run, Run | Display, Display => true
  | _, _ => false
  end.

Definition phase_rank (p : phase) : nat :=
  match p with
  | Install => 0 | Configure => 1 | Construct => 2 | Run => 3 | Display => 4
  end%nat.

(** The top-level calls that run a training loop or draw a plot, and
    those that show a result. *)
Definition run_plot_names : list string :=
  ["scatter"; "plot"; "imshow"; "lineplot"; "train"].
Definition display_names : list string := ["show"; "print"; "display"].

Definition stmt_phase (s : stmt) : option phase :=
  match s with
  | SShell cmd => if starts_with "pip install" (lstrip cmd) then Some Install else None
  | SEnvMagic _ => Some Configure
  | SAssign _ rhs => if is_literal rhs then None else Some Construct
  | SExpr (ECall f _ _) =>
      if in_list (last_name f) run_plot_names then Some Run
      else if in_list (last_name f) display_names then Some Display
      else None
  | _ => None
  end.

Definition has_phase (ph : phase) (src : list stmt) : bool :=
  existsb (λ s, match stmt_phase s with Some q => phase_eqb ph q | None => false end) src.

(** The cells (by index) that contain a statement of the phase. *)
Definition phase_cells (ph : phase) (nb : notebook) : list nat :=
  fst <$> List.filter (λ ic : nat * list stmt, has_phase ph ic.2) (code_cells nb).

(** The phases of the statements of a cell, in order. *)
Definition cell_phases (src : list stmt) : list phase := omap stmt_phase src.

Fixpoint nondecreasing (l : list nat) : bool :=
  match l with
  | a :: (b :: _) as l' => (a <=? b)%nat && nondecreasing l'
  | _ => true
  end.

Definition run_plot_calls (nb : notebook) : list (nat * string) :=
  flat_map (λ ic : nat * list stmt,
              omap (λ s, match s with
                         | SExpr (ECall f _ _) =>
                             if in_list (last_name f) run_plot_names
                             then Some (ic.1, dotted f) else None
                         | _ => None
                         end) ic.2)
           (code_cells nb).

Definition before (xs ys : list nat) : Prop :=
  ∀ i j, i ∈ xs → j ∈ ys → (i < j)%nat.

Definition before_b (xs ys : list nat) : bool :=
  forallb (λ i, forallb (λ j, (i <? j)%nat) ys) xs.

(** The order of steps as the specification gives it for the
    transformers notebook, and its count of run or plot calls. *)
Definition claimed_step_order : Prop :=
  before (phase_cells Install transformers_nb) (phase_cells Configure transformers_nb) ∧
  ∀ nb, nb ∈ notebooks → length (run_plot_calls nb) = 1%nat.

(** *** Variables *)

Definition notebook_assignments (nb : notebook) : list (string * expr) :=
  flat_map (λ ic : nat * list stmt, assignments ic.2) (code_cells nb).

(** The variables that an assignment binds to a library object. *)
Definition library_vars (nb : notebook) : list string :=
  remove_dups (fst <$> List.filter (λ xe : string * expr, negb (is_literal xe.2))
                         (notebook_assignments nb)).

Definition assign_count (nb : notebook) (x : string) : nat :=
  length (List.filter (λ xe : string * expr, bool_decide (xe.1 = x))
            (notebook_assignments nb)).

(** An assignment [y = x] would hand the object of one variable to
    another. *)
Definition is_alias (e : expr) : bool :=
  match e with
  | EName _ => true
  | _ => false
  end.

Definition claimed_single_assignment : Prop :=
  ∀ nb x, nb ∈ notebooks → x ∈ library_vars nb → assign_count nb x = 1%nat.

Definition names_referenced (deep : bool) (nb : notebook) : list string :=
  omap (λ e, match e with EName x => Some x | _ => None end)
       (flat_map (block_subexprs deep) (snd <$> code_cells nb)).

(** *** Words of a notebook: identifiers, attribute names, keyword
    names and string literals of its expressions *)

Definition expr_words (e : expr) : list string :=
  match e with
  | EName x => [x]
  | EStr s => [s]
  | EAttr _ a => [a]
  | ECall _ _ kwargs => fst <$> kwargs
  | _ => []
  end.

Definition notebook_words (nb : notebook) : list string :=
  flat_map expr_words (flat_map (block_subexprs true) (snd <$> code_cells nb)).

Definition env_requests (nb : notebook) : list env_request :=
  (λ l : nat * string, parse_env l.2) <$> env_lines nb.

Definition clearml_env_vars : list string :=
  ["CLEARML_WEB_HOST"; "CLEARML_API_HOST"; "CLEARML_FILES_HOST";
   "CLEARML_API_ACCESS_KEY"; "CLEARML_API_SECRET_KEY"; "CLEARML_LOG_MODEL"].

(** Ways of reading the environment from Python. *)
Definition environ_readers : list string := ["os"; "environ"; "getenv"; "get_ipython"].

(** *** What a notebook tells the tracker

    The tracker is ClearML.  A notebook addresses it in three ways: an
    [%env] line that sets one of its variables, a call of an entry
    point of its package, and an argument of some other call that
    names it. *)

Definition lower (a : ascii) : ascii :=
  let n := Ascii.nat_of_ascii a in
  if (65 <=? n)%nat && (n <=? 90)%nat then Ascii.ascii_of_nat (n + 32) else a.

Fixpoint lowercase (s : string) : string :=
  match s with
  | EmptyString => EmptyString
  | String a s' => String (lower a) (lowercase s')
  end.

(** [p] occurs in [s]. *)
Fixpoint occurs (p s : string) : bool :=
  starts_with p s
  || match s with
     | EmptyString => false
     | String _ s' => occurs p s'
     end.

(** The word names the tracker: it contains [clearml], in either
    case. *)
Definition names_tracker (w : string) : bool := occurs "clearml" (lowercase w).

Definition mentions_tracker (e : expr) : bool :=
  existsb names_tracker (flat_map expr_words (subexprs e)).

(** The names that a statement imports from the package of the
    tracker. *)
Fixpoint tracker_imports (s : stmt) : list string :=
  match s with
  | SImportAs m a => if names_tracker m then [a] else []
  | SFromImport m ns => if names_tracker m then ns else []
  | SDef _ _ _ body => flat_map tracker_imports body
  | STry body handler => flat_map tracker_imports body ++ flat_map tracker_imports handler
  | _ => []
  end.

Fixpoint root_name (f : expr) : option string :=
  match f with
  | EName x => Some x
  | EAttr e _ => root_name e
  | _ => None
  end.

Inductive setting :=
| SetsVariable (var value : string)                     (* %env var=value *)
| CallsTracker (callee : string) (args : list expr) (kwargs : list (string * expr))
| PassesArgument (callee : string) (keyword : option string) (value : expr).

(** A call of a name imported from the tracker is a call of the
    tracker; of any other call, the arguments that name the tracker. *)
Definition call_settings (tracker : list string) (e : expr) : list setting :=
  match e with
  | ECall f args kwargs =>
      if match root_name f with Some x => in_list x tracker | None => false end
         || names_tracker (dotted f)
      then [CallsTracker (dotted f) args kwargs]
      else omap (λ a, if mentions_tracker a
                      then Some (PassesArgument (dotted f) None a) else None) args
           ++ omap (λ kw : string * expr,
                      if names_tracker kw.1 || mentions_tracker kw.2
                      then Some (PassesArgument (dotted f) (Some kw.1) kw.2) else None)
                   kwargs
  | _ => []
  end.

Definition stmt_settings (tracker : list string) (s : stmt) : list setting :=
  match s with
  | SEnvMagic param =>
      match parse_env param with
      | EnvSet var value => if names_tracker var then [SetsVariable var value] else []
      | _ => []
      end
  | _ => flat_map (call_settings tracker) (flat_map subexprs (stmt_exprs true s))
  end.

(** All that a notebook tells the tracker, with the index of the cell. *)
Definition tracker_settings (nb : notebook) : list (nat * setting) :=
  let tracker := flat_map tracker_imports (all_stmts nb) in
  flat_map (λ ic : nat * list stmt,
              (λ x, (ic.1, x)) <$> flat_map (stmt_settings tracker) ic.2)
           (code_cells nb).

Definition is_variable_setting (x : setting) : bool :=
  match x with
  | SetsVariable _ _ => true
  | _ => false
  end.

(** The claim that the transformers notebook configures the tracking
    session by environment variables only. *)
Definition claimed_environ_only : Prop :=
  ∀ i x, (i, x) ∈ tracker_settings transformers_nb → is_variable_setting x = true.

(** The names that a statement binds, anywhere in it: targets of
    assignments, imported names, functions and their parameters. *)
Fixpoint bound_names (s : stmt) : list string :=
  match s with
  | SAssign x _ => [x]
  | SImportAs _ a => [a]
  | SFromImport _ ns => ns
  | SDef _ n ps body => n :: ps ++ flat_map bound_names body
  | STry body handler => flat_map bound_names body ++ flat_map bound_names handler
  | _ => []
  end.

(** The names that a notebook mentions without binding them anywhere:
    builtins, or names that the kernel provides. *)
Definition foreign_names (nb : notebook) : list string :=
  List.filter (λ x, negb (in_list x (flat_map bound_names (all_stmts nb))))
              (names_referenced true nb).

(** The cells of the transformers notebook before its first import
    (the credential cells and the installation), and the cells from
    the first import on. *)
Definition transformers_setup : notebook := take 8 transformers_nb.
Definition transformers_work : notebook := drop 8 transformers_nb.

(** *** What a notebook asks of the local file system

    The shell and the libraries are outside the embedding, and so is
    the disk they write to.  What the code of a notebook determines is
    what it asks for: the commands it hands to the shell, which run
    with the rights of the user, and the paths it hands to the
    libraries.  A string literal is taken for a path when it has a
    directory separator or an extension. *)

Inductive fs_request :=
| RunsCommand (cmd : string)                                   (* !cmd *)
| NamesPath (callee : string) (keyword : option string) (path : string).

#[global] Instance fs_request_eq_dec : EqDecision fs_request.
Proof. solve_decision. Defined.

Definition is_path (s : string) : bool := contains "/" s || contains "." s.

(** The string literals of an argument. *)
Fixpoint expr_strings (e : expr) : list string :=
  match e with
  | EStr s => [s]
  | EList items => flat_map expr_strings items
  | _ => []
  end.

(** The string literals that a call hands over: callee, keyword or
    none for a positional argument, string. *)
Definition call_strings (e : expr) : list (string * option string * string) :=
  match e with
  | ECall f args kwargs =>
      ((λ s, (dotted f, None, s)) <$> flat_map expr_strings args)
      ++ flat_map (λ kw : string * expr,
                     (λ s, (dotted f, Some kw.1, s)) <$> expr_strings kw.2) kwargs
  | _ => []
  end.

(** Every string literal that the calls of a notebook hand over,
    function bodies included. *)
Definition string_arguments (nb : notebook)
  : list (nat * (string * option string * string)) :=
  flat_map (λ ic : nat * list stmt,
              (λ x, (ic.1, x)) <$> flat_map call_strings (block_subexprs true ic.2))
           (code_cells nb).

Definition path_requests (e : expr) : list fs_request :=
  omap (λ x : string * option string * string,
          if is_path x.2 then Some (NamesPath x.1.1 x.1.2 x.2) else None)
       (call_strings e).

Fixpoint stmt_fs_requests (s : stmt) : list fs_request :=
  match s with
  | SShell cmd => [RunsCommand cmd]
  | SAssign _ e | SExpr e | SReturn e => flat_map path_requests (subexprs e)
  | SDef _ _ _ body => flat_map stmt_fs_requests body
  | STry body handler =>
      flat_map stmt_fs_requests body ++ flat_map stmt_fs_requests handler
  | _ => []
  end.

Definition fs_requests (nb : notebook) : list (nat * fs_request) :=
  flat_map (λ ic : nat * list stmt,
              (λ x, (ic.1, x)) <$> flat_map stmt_fs_requests ic.2)
           (code_cells nb).

(** The calls of a notebook that hand over a path. *)
Definition path_calls (nb : notebook) : list (nat * expr) :=
  List.filter (λ ie : nat * expr, negb (bool_decide (path_requests ie.2 = [])))
              (notebook_calls true nb).

(** The claim that [plt.savefig("plot.png")] is all that the code of
    the repository asks of the local file system. *)
Definition claimed_only_savefig : Prop :=
  ∀ nb i r, nb ∈ notebooks → (i, r) ∈ fs_requests nb →
    nb = matplotlib_nb ∧ r = NamesPath "plt.savefig" None "plot.png".

Definition event_callee (ev : event) : option val :=
  match ev with
  | EvCall _ f _ _ => Some f
  | _ => None
  end.

Definition val_last_name (v : val) : string :=
  match v with
  | VAttr _ a => a
  | _ => EmptyString
  end.

(** *** Operations of the matplotlib notebook *)

Definition operation_names : list string :=
  ["init"; "scatter"; "plot"; "imshow"; "lineplot"].

Definition operations (nb : notebook) : list (nat * string) :=
  omap (λ ie : nat * expr, (λ f, (ie.1, dotted f)) <$> callee_of ie.2)
       (calls_named operation_names false nb).

(** The title a cell gives its plot with [plt.title('...')]. *)
Definition cell_title (src : list stmt) : option string :=
  head (omap (λ e, match e with
                   | ECall f [EStr t] [] =>
                       if String.eqb (last_name f) "title" then Some t else None
                   | _ => None
                   end) (block_subexprs false src)).

(** Statements without control flow of the notebook's own. *)
Definition straight_line (s : stmt) : bool :=
  match s with
  | SComment _ | SShell _ | SImportAs _ _ | SFromImport _ _
  | SAssign _ _ | SExpr _ => true
  | _ => false
  end.

Definition cell_defs (src : list stmt) : list string :=
  omap (λ s, match s with SDef _ n _ _ => Some n | _ => None end) src.

(** The calls that start the session, or draw, title or save a figure
    (not the preparation of the data, nor [plt.show]). *)
Definition figure_names : list string :=
  ["init"; "scatter"; "plot"; "imshow"; "lineplot"; "title"; "savefig"].

Definition figure_calls (src : list stmt) : list string :=
  List.filter (λ n, in_list n figure_names)
    (last_name <$> omap callee_of (block_subexprs false src)).

(** Each operation as one library call, the line plot with a name. *)
Definition claimed_single_calls : Prop :=
  (∀ i src, (i, src) ∈ code_cells matplotlib_nb →
            i ∈ (fst <$> operations matplotlib_nb) →
            length (figure_calls src) = 1%nat) ∧
  is_Some (cell_title mpl_line).

(** *** Threads, processes, coroutines *)

Definition is_await (e : expr) : bool :=
  match e with
  | EAwait _ => true
  | _ => false
  end.

Fixpoint uses_async (s : stmt) : bool :=
  match s with
  | SDef async _ _ body => async || existsb uses_async body
  | STry body handler => existsb uses_async body || existsb uses_async handler
  | SAssign _ e | SExpr e | SReturn e => existsb is_await (subexprs e)
  | _ => false
  end.

Fixpoint imported_modules (s : stmt) : list string :=
  match s with
  | SImportAs m _ | SFromImport m _ => [m]
  | SDef _ _ _ body => flat_map imported_modules body
  | STry body handler => flat_map imported_modules body ++ flat_map imported_modules handler
  | _ => []
  end.

Definition concurrency_modules : list string :=
  ["threading"; "_thread"; "multiprocessing"; "concurrent.futures"; "concurrent";
   "asyncio"; "subprocess"; "os"; "signal"; "queue"].

Definition thread_names : list string :=
  ["Thread"; "Timer"; "start_new_thread"; "ThreadPoolExecutor"; "ThreadPool"].

Definition process_names : list string :=
  ["Process"; "Pool"; "ProcessPoolExecutor"; "Popen"; "fork"; "system";
   "spawn"; "check_call"; "check_output"].

Definition calls_any (names : list string) (s : stmt) : bool :=
  existsb (λ e, match callee_of e with
                | Some f => in_list (last_name f) names
                | None => false
                end)
          (flat_map subexprs (stmt_exprs true s)).

(** A shell escape runs its command in a child process. *)
Definition starts_process (s : stmt) : bool :=
  match s with
  | SShell _ => true
  | _ => calls_any process_names s
  end.

Definition starts_thread (s : stmt) : bool := calls_any thread_names s.

Definition claimed_no_thread_or_process : Prop :=
  ∀ nb src s, nb ∈ notebooks → Code src ∈ nb → s ∈ src →
    starts_thread s = false ∧ starts_process s = false ∧ uses_async s = false.

(** *** Objects in events *)

Fixpoint val_mentions (i : nat) (v : val) : bool :=
  match v with
  | VObj j => (i =? j)%nat
  | VAttr v' _ => val_mentions i v'
  | VList items => existsb (val_mentions i) items
  | _ => false
  end.

(** The object [i] is the receiver or an argument of the event. *)
Definition event_uses (i : nat) (ev : event) : bool :=
  match ev with
  | EvCall _ f args kwargs =>
      val_mentions i f || existsb (val_mentions i) args
      || existsb (λ kw : string * val, val_mentions i kw.2) kwargs
  | EvBinOp _ _ l r => val_mentions i l || val_mentions i r
  | EvSubscript _ v idx => val_mentions i v || val_mentions i idx
  | EvAwait _ v => val_mentions i v
  | _ => false
  end.

(** The module in which the callee of an event lives. *)
Fixpoint val_root (v : val) : option string :=
  match v with
  | VModule m => Some m
  | VAttr v' _ => val_root v'
  | _ => None
  end.

Definition event_library (ev : event) : option string :=
  match ev with
  | EvCall _ f _ _ => val_root f
  | _ => None
  end.

Definition in_library (m : string) (ev : event) : bool :=
  match event_library ev with
  | Some m' => String.eqb m m'
  | None => false
  end.

(** The string literals handed to a library by an event. *)
Fixpoint val_strings (v : val) : list string :=
  match v with
  | VStr s => [s]
  | VList items => flat_map val_strings items
  | _ => []
  end.

Definition event_strings (ev : event) : list string :=
  match ev with
  | EvCall _ _ args kwargs =>
      flat_map val_strings args ++ flat_map (λ kw : string * val, val_strings kw.2) kwargs
  | EvBinOp _ _ l r => val_strings l ++ val_strings r
  | EvSubscript _ _ idx => val_strings idx
  | _ => []
  end.

Definition is_suspension (ev : event) : bool :=
  match ev with
  | EvAwait _ _ => true
  | _ => false
  end.

(** A library that misses the seaborn package. *)
Definition seaborn_missing : oracle string :=
  λ _ ev, match ev with
          | EvImport m => if String.eqb m "seaborn" then Some "ModuleNotFoundError" else None
          | _ => None
          end.

(** *** The environment after the credential cells *)

Definition credentials_set (env : gmap string string) : gmap string string :=
  <["CLEARML_API_SECRET_KEY" := EmptyString]>
    (<["CLEARML_API_ACCESS_KEY" := EmptyString]>
       (<["CLEARML_FILES_HOST" := EmptyString]>
          (<["CLEARML_API_HOST" := EmptyString]>
             (<["CLEARML_WEB_HOST" := EmptyString]> env)))).

Definition log_model_set (env : gmap string string) : gmap string string :=
  <["CLEARML_LOG_MODEL" := "True"]> env.

Definition is_env_read (ev : event) : bool :=
  match ev with
  | EvGetEnv _ => true
  | _ => false
  end.

(** *** Checks used for threads and processes *)

Definition is_pip_install (s : stmt) : bool :=
  match s with
  | SShell cmd => starts_with "pip install" (lstrip cmd)
  | _ => false
  end.

Definition sync_check (s : stmt) : bool :=
  negb (starts_thread s) && negb (uses_async s)
  && forallb (λ m, negb (in_list m concurrency_modules)) (imported_modules s)
  && (negb (starts_process s) || is_pip_install s).

(** *** Checks used for events *)

(** The event imports the package of the tracker or calls one of its
    entry points. *)
Definition event_in_tracker (ev : event) : bool :=
  match ev with
  | EvImport m => names_tracker m
  | EvCall _ f _ _ =>
      match val_root f with
      | Some m => names_tracker m
      | None => false
      end
  | _ => false
  end.

Fixpoint val_dotted (v : val) : string :=
  match v with
  | VModule m => m
  | VAttr v' a => val_dotted v' +:+ "." +:+ a
  | VFunc n => n
  | _ => "?"
  end.

(** What an event asks of the local file system. *)
Definition event_fs_requests (ev : event) : list fs_request :=
  match ev with
  | EvShell cmd => [RunsCommand cmd]
  | EvCall _ f args kwargs =>
      omap (λ s, if is_path s then Some (NamesPath (val_dotted f) None s) else None)
           (flat_map val_strings args)
      ++ flat_map (λ kw : string * val,
                     omap (λ s, if is_path s
                                then Some (NamesPath (val_dotted f) (Some kw.1) s)
                                else None)
                          (val_strings kw.2)) kwargs
  | _ => []
  end.

(** The event asks of the file system nothing but what is [allowed]. *)
Definition asks_only (allowed : list fs_request) (ev : event) : bool :=
  forallb (λ r, bool_decide (r ∈ allowed)) (event_fs_requests ev).

(** The kind of step an event belongs to: configuration, installation,
    or work with the libraries. *)
Definition event_rank (ev : event) : nat :=
  match ev with
  | EvSetEnv _ _ | EvGetEnv _ => 0
  | EvShell _ => 1
  | _ => 2
  end%nat.

(** ** Calling a function that the notebook defines

    The notebooks define one function, [tokenize_dataset], and hand it
    to [dataset.map], which calls it back on batches.  A call binds
    the parameters in a frame laid over the global namespace, runs the
    body until a [return], and leaves the global namespace as it was:
    the names that the body binds are local.  (The syntax has no
    [global] statement and no default arguments.) *)

(** The names that a statement binds. *)
Fixpoint assigned_names (s : stmt) : list string :=
  match s with
  | SAssign x _ => [x]
  | SImportAs _ a => [a]
  | SFromImport _ ns => ns
  | SDef _ n _ _ => [n]
  | STry body handler =>
      flat_map assigned_names body ++ flat_map assigned_names handler
  | _ => []
  end.

Definition find_function (name : string) (src : list stmt)
  : option (list string * list stmt) :=
  head (omap (λ s, match s with
                   | SDef false n ps body =>
                       if String.eqb n name then Some (ps, body) else None
                   | _ => None
                   end) src).

Definition is_callable (v : val) : bool :=
  match v with
  | VAttr _ _ | VObj _ => true
  | _ => false
  end.

Definition with_vars (vs : gmap string val) (st : state) : state :=
  mkState vs (environ st) (next_id st) (trace st).

(** The frame of a call: the local names hide the global ones; a local
    name is unbound until the body binds it. *)
Definition frame (globals : gmap string val) (params : list string)
    (args : list val) (body : list stmt) : gmap string val :=
  foldr (λ pa m, <[pa.1 := pa.2]> m)
        (foldr delete globals (flat_map assigned_names body))
        (zip params args).

Section Call.

Context {E : Type}.

(** Run statements until one returns. *)
Fixpoint untilM {A} (f : A → M E (option val)) (l : list A) : M E (option val) :=
  match l with
  | [] => ret None
  | a :: l' =>
      r <- f a ;;
      match r with
      | Some v => ret (Some v)
      | None => untilM f l'
      end
  end.

Fixpoint body_stmt (s : stmt) : M E (option val) :=
  match s with
  | SReturn e => v <- eval e ;; ret (Some v)
  | STry body handler => catch (untilM body_stmt body) (untilM body_stmt handler)
  | _ => exec s ;;; ret None
  end.

Definition invoke (fn : list string * list stmt) (args : list val) : M E val :=
  fun O st =>
    if bool_decide (length fn.1 = length args) then
      match untilM body_stmt fn.2 O
              (with_vars (frame (vars st) fn.1 args fn.2) st) with
      | (Ok r, st') => (Ok (default VNone r), with_vars (vars st) st')
      | (Raise e, st') => (Raise e, with_vars (vars st) st')
      | (Stuck, st') => (Stuck, with_vars (vars st) st')
      end
    else (Raise (TypeError "wrong number of arguments"), st).

End Call.

(** [def tokenize_dataset(dataset): return tokenizer(dataset["text"])] *)
Definition tokenize_dataset_fn : list string * list stmt :=
  default ([], []) (find_function "tokenize_dataset" hf_tokenize).

(** The transformers notebook up to the definition of
    [tokenize_dataset], where [dataset.map] is about to be called. *)
Definition transformers_until_map : notebook :=
  take 16 transformers_nb ++ [Code (take 1 hf_tokenize)].

(** ** Names read and bound

    A static reading of which names a block needs from the namespace
    it starts in.  The body of a [def] reads nothing when the function
    is defined. *)

Fixpoint expr_names (e : expr) : list string :=
  match e with
  | EName x => [x]
  | EList items => flat_map expr_names items
  | EAttr e' _ => expr_names e'
  | ESubscript e' idx => expr_names e' ++ expr_names idx
  | EBinOp _ l r => expr_names l ++ expr_names r
  | ECall f args kwargs =>
      expr_names f ++ flat_map expr_names args
        ++ flat_map (λ kw, expr_names kw.2) kwargs
  | EAwait e' => expr_names e'
  | _ => []
  end.

(** The names that a statement has bound when it completes. *)
Definition stmt_binds (s : stmt) : list string :=
  match s with
  | SAssign x _ => [x]
  | SImportAs _ a => [a]
  | SFromImport _ ns => ns
  | SDef _ n _ _ => [n]
  | _ => []
  end.

(** The names a block reads before it has bound them itself. *)
Fixpoint free_of (reads : stmt → list string) (block : list stmt) : list string :=
  match block with
  | [] => []
  | s :: rest =>
      reads s ++ List.filter (λ x, negb (in_list x (stmt_binds s))) (free_of reads rest)
  end.

Fixpoint stmt_reads (s : stmt) : list string :=
  match s with
  | SAssign _ e | SExpr e | SReturn e => expr_names e
  | STry body handler => free_of stmt_reads body ++ free_of stmt_reads handler
  | _ => []
  end.

Definition free_names (block : list stmt) : list string := free_of stmt_reads block.

(** The names that a function reads from the global namespace when it
    is called: those its body reads before it binds them, the
    parameters apart. *)
Definition function_reads (fn : list string * list stmt) : list string :=
  List.filter (λ x, negb (in_list x fn.1)) (free_names fn.2).

Definition cell_source (c : cell) : list stmt :=
  match c with
  | Markdown _ => []
  | Code src => src
  end.

Definition notebook_source (nb : notebook) : list stmt := flat_map cell_source nb.

Definition bound (st : state) (x : string) : Prop := is_Some (vars st !! x).

(** The plot cells of the matplotlib notebook. *)
Definition mpl_plot_cells : list (list stmt) :=
  [mpl_scatter; mpl_line; mpl_image; mpl_image_titled; mpl_savefig; mpl_seaborn].

Section Scoping.

Context {E : Type}.

(** With the names [X] bound, the computation leaves the namespace as
    it is and raises no [NameError]. *)
Definition quiet (X : list string) (A : Type) (m : M E A) : Prop :=
  ∀ O st, (∀ x, x ∈ X → bound st x) →
    vars (m O st).2 = vars st ∧ ∀ y, (m O st).1 ≠ Raise (NameError y).

(** The computation leaves the namespace as it is, and completes only
    where the names [X] are bound. *)
Definition strict (X : list string) (A : Type) (m : M E A) : Prop :=
  ∀ O st a st', m O st = (Ok a, st') →
    vars st' = vars st ∧ ∀ x, x ∈ X → bound st x.

(** The computation unbinds no name. *)
Definition keeps_bound (A : Type) (m : M E A) : Prop :=
  ∀ O st x, bound st x → bound (m O st).2 x.

End Scoping.

Arguments quiet : clear implicits.
Arguments strict : clear implicits.
Arguments keeps_bound : clear implicits.


(** The body of [tokenize_dataset] with the batch in place of its
    parameter, in the global namespace. *)
Definition tokenize_inline {E} (batch : val) : M E val :=
  (tok <- lookup_var "tokenizer" ;;
   col <- apply_subscript batch (VStr "text") ;;
   apply_call tok [col] [])%kernel.

(** ** Vocabulary of the further properties *)

(** A run of one of the two credential cells: [true] for the cell of
    the five credentials, [false] for the cell of CLEARML_LOG_MODEL. *)
Definition credential_cell (b : bool) : cell :=
  if b then Code hf_credentials else Code hf_log_model.

(** The events of the two credential cells. *)
Definition credential_events : list event :=
  [EvSetEnv "CLEARML_WEB_HOST" EmptyString;
   EvSetEnv "CLEARML_API_HOST" EmptyString;
   EvSetEnv "CLEARML_FILES_HOST" EmptyString;
   EvSetEnv "CLEARML_API_ACCESS_KEY" EmptyString;
   EvSetEnv "CLEARML_API_SECRET_KEY" EmptyString;
   EvSetEnv "CLEARML_LOG_MODEL" "True"].

(** The call is of the method or function [name]. *)
Definition calls_name (name : string) (ev : event) : bool :=
  match event_callee ev with
  | Some f => String.eqb (val_last_name f) name
  | None => false
  end.

(** A subscript event takes its item from object [i]. *)
Definition subscript_of (i : nat) (ev : event) : bool :=
  match ev with
  | EvSubscript _ (VObj j) _ => (i =? j)%nat
  | EvSubscript _ _ _ => false
  | _ => true
  end.

(** The identifiers of the objects that a value or an event mentions. *)
Fixpoint val_objs (v : val) : list nat :=
  match v with
  | VObj j => [j]
  | VAttr v' _ => val_objs v'
  | VList items => flat_map val_objs items
  | _ => []
  end.

Definition event_objs (ev : event) : list nat :=
  match ev with
  | EvCall _ f args kwargs =>
      val_objs f ++ flat_map val_objs args
        ++ flat_map (λ kw : string * val, val_objs kw.2) kwargs
  | EvBinOp _ _ l r => val_objs l ++ val_objs r
  | EvSubscript _ v idx => val_objs v ++ val_objs idx
  | EvAwait _ v => val_objs v
  | _ => []
  end.

Definition plot_names : list string := ["scatter"; "plot"; "imshow"; "lineplot"].

(** Every plot call of the trace uses only objects made after the plot
    call before it ([last] is the result of that call). *)
Fixpoint plots_use_new_data (last : nat) (tr : list event) : bool :=
  match tr with
  | [] => true
  | ev :: rest =>
      match ev with
      | EvCall i f _ _ =>
          if in_list (val_last_name f) plot_names
          then forallb (λ j, (last <? j)%nat) (event_objs ev)
               && plots_use_new_data i rest
          else plots_use_new_data last rest
      | _ => plots_use_new_data last rest
      end
  end.


Definition callback_state_no_tokenizer : state :=
  mkState (<["dataset" := VObj 3]> ∅) ∅ 4 [].

(** A kernel state in which only [trainer] is bound. *)
Definition trainer_state : state := mkState (<["trainer" := VObj 8]> ∅) ∅ 9 [].

(** A subscript event. *)
Definition is_subscript (ev : event) : bool :=
  match ev with
  | EvSubscript _ _ _ => true
  | _ => false
  end.

(** The raw dataset (3) is used by [map] only, subscripts are taken
    from the tokenized dataset (4), and [Trainer] gets the splits (6
    and 7) and not the raw dataset. *)
Definition dataset_flow_ok (ev : event) : bool :=
  (negb (event_uses 3 ev) || calls_name "map" ev)
  && subscript_of 4 ev
  && (negb (calls_name "Trainer" ev)
      || (event_uses 6 ev && event_uses 7 ev && negb (event_uses 3 ev))).

(** * Proofs *)

(** ** Induction principles for the nested syntax *)

Section ExprInd.

Variable P : expr → Prop.
Hypothesis HName : ∀ x, P (EName x).
Hypothesis HStr : ∀ s, P (EStr s).
Hypothesis HInt : ∀ n, P (EInt n).
Hypothesis HFloat : ∀ lit, P (EFloat lit).
Hypothesis HBool : ∀ b, P (EBool b).
Hypothesis HList : ∀ items, Forall P items → P (EList items).
Hypothesis HAttr : ∀ e a, P e → P (EAttr e a).
Hypothesis HSubscript : ∀ e idx, P e → P idx → P (ESubscript e idx).
Hypothesis HBinOp : ∀ op l r, P l → P r → P (EBinOp op l r).
Hypothesis HCall : ∀ f args kwargs,
  P f → Forall P args → Forall (λ kw, P kw.2) kwargs → P (ECall f args kwargs).
Hypothesis HAwait : ∀ e, P e → P (EAwait e).

Fixpoint expr_nested_ind (e : expr) : P e :=
  match e with
  | EName x => HName x
  | EStr s => HStr s
  | EInt n => HInt n
  | EFloat lit => HFloat lit
  | EBool b => HBool b
  | EList items =>
      HList items
        ((fix go l : Forall P l :=
            match l with
            | [] => @List.Forall_nil _ P
            | a :: l' => @List.Forall_cons _ P a l' (expr_nested_ind a) (go l')
            end) items)
  | EAttr e a => HAttr e a (expr_nested_ind e)
  | ESubscript e idx => HSubscript e idx (expr_nested_ind e) (expr_nested_ind idx)
  | EBinOp op l r => HBinOp op l r (expr_nested_ind l) (expr_nested_ind r)
  | ECall f args kwargs =>
      HCall f args kwargs (expr_nested_ind f)
        ((fix go l : Forall P l :=
            match l with
            | [] => @List.Forall_nil _ P
            | a :: l' => @List.Forall_cons _ P a l' (expr_nested_ind a) (go l')
            end) args)
        ((fix go l : Forall (λ kw, P kw.2) l :=
            match l with
            | [] => @List.Forall_nil _ _
            | kw :: l' =>
                @List.Forall_cons _ (λ kw, P kw.2) kw l'
                  (match kw return P kw.2 with (_, a) => expr_nested_ind a end)
                  (go l')
            end) kwargs)
  | EAwait e => HAwait e (expr_nested_ind e)
  end.

End ExprInd.

Section StmtInd.

Variable P : stmt → Prop.
Hypothesis HComment : ∀ t, P (SComment t).
Hypothesis HShell : ∀ c, P (SShell c).
Hypothesis HEnv : ∀ p, P (SEnvMagic p).
Hypothesis HImport : ∀ m a, P (SImportAs m a).
Hypothesis HFrom : ∀ m ns, P (SFromImport m ns).
Hypothesis HAssign : ∀ x e, P (SAssign x e).
Hypothesis HExpr : ∀ e, P (SExpr e).
Hypothesis HDef : ∀ a n ps body, Forall P body → P (SDef a n ps body).
Hypothesis HReturn : ∀ e, P (SReturn e).
Hypothesis HTry : ∀ body handler, Forall P body → Forall P handler → P (STry body handler).

Fixpoint stmt_nested_ind (s : stmt) : P s :=
  let block :=
    fix go l : Forall P l :=
      match l with
      | [] => @List.Forall_nil _ P
      | a :: l' => @List.Forall_cons _ P a l' (stmt_nested_ind a) (go l')
      end in
  match s with
  | SComment t => HComment t
  | SShell c => HShell c
  | SEnvMagic p => HEnv p
  | SImportAs m a => HImport m a
  | SFromImport m ns => HFrom m ns
  | SAssign x e => HAssign x e
  | SExpr e => HExpr e
  | SDef a n ps body => HDef a n ps body (block body)
  | SReturn e => HReturn e
  | STry body handler => HTry body handler (block body) (block handler)
  end.

End StmtInd.

(** ** A proof principle for the interpreter

    A property of computations that holds of the primitive operations
    and is preserved by sequencing holds of every expression and of
    every statement built from the operations it admits. *)

Section Generic.

Context {E : Type}.
Variable P : ∀ A : Type, M E A → Prop.
Variables allow_env allow_try : bool.

Hypothesis P_ret : ∀ A (a : A), P A (ret a).
Hypothesis P_bind : ∀ A B (m : M E A) (f : A → M E B),
  P A m → (∀ a, P B (f a)) → P B (bind m f).
Hypothesis P_stuck : ∀ A, P A stuck.
Hypothesis P_type_error : ∀ A msg, P A (raise (TypeError msg)).
Hypothesis P_usage_error : ∀ A msg, P A (raise (UsageError msg)).
Hypothesis P_lookup_var : ∀ x, P _ (lookup_var x).
Hypothesis P_bind_var : ∀ x v, P _ (bind_var x v).
Hypothesis P_fresh_id : P _ fresh_id.
Hypothesis P_interact : ∀ ev, consults ev = true → P _ (interact ev).
Hypothesis P_log : ∀ ev, consults ev = false → P _ (log ev).
Hypothesis P_get_environ : ∀ key, P _ (get_environ key).
Hypothesis P_set_environ : allow_env = true → ∀ var value, P _ (set_environ var value).
Hypothesis P_catch : allow_try = true → ∀ A (m h : M E A), P A m → P A h → P A (catch m h).

Lemma mapM_P {A B} (f : A → M E B) (l : list A) :
  Forall (λ a, P B (f a)) l → P _ (mapM f l).
Proof.
  induction 1 as [|a l Ha _ IH]; simpl.
  - apply P_ret.
  - apply P_bind; [exact Ha|]. intros b.
    apply P_bind; [exact IH|]. intros bs. apply P_ret.
Qed.

Lemma seqM_P {A} (f : A → M E unit) (l : list A) :
  Forall (λ a, P unit (f a)) l → P _ (seqM f l).
Proof.
  induction 1 as [|a l Ha _ IH]; simpl.
  - apply P_ret.
  - apply P_bind; [exact Ha|]. intros _. exact IH.
Qed.

Lemma external_P (mk : nat → event) :
  (∀ i, consults (mk i) = true) → P _ (external mk).
Proof.
  intros Hmk. unfold external.
  apply P_bind; [apply P_fresh_id|]. intros i.
  apply P_bind; [apply P_interact, Hmk|]. intros _. apply P_ret.
Qed.

Lemma apply_binop_P op l r : P _ (apply_binop op l r).
Proof.
  unfold apply_binop.
  destruct (is_external l || is_external r); [by apply external_P|].
  destruct op, l, r; try apply P_stuck; try apply P_ret.
  destruct (0 <=? _); [apply P_ret | apply P_stuck].
Qed.

Lemma apply_subscript_P v idx : P _ (apply_subscript v idx).
Proof.
  unfold apply_subscript.
  destruct (is_external v); [by apply external_P | apply P_stuck].
Qed.

Lemma apply_call_P f args kwargs : P _ (apply_call f args kwargs).
Proof.
  destruct f; simpl; try apply P_type_error; try apply P_stuck;
    by apply external_P.
Qed.

Theorem eval_P (e : expr) : P _ (eval e).
Proof.
  induction e as [x|s|n|lit|b|items IH|e a IH|e idx IHe IHi|op l r IHl IHr
                 |f args kwargs IHf IHa IHk|e IH] using expr_nested_ind; simpl.
  - apply P_lookup_var.
  - apply P_ret.
  - apply P_ret.
  - apply P_ret.
  - apply P_ret.
  - apply P_bind; [by apply mapM_P|]. intros vs. apply P_ret.
  - apply P_bind; [exact IH|]. intros v. apply P_ret.
  - apply P_bind; [exact IHe|]. intros v.
    apply P_bind; [exact IHi|]. intros i. apply apply_subscript_P.
  - apply P_bind; [exact IHl|]. intros a.
    apply P_bind; [exact IHr|]. intros b. apply apply_binop_P.
  - apply P_bind; [exact IHf|]. intros vf.
    apply P_bind; [by apply mapM_P|]. intros vargs.
    apply P_bind.
    + apply mapM_P. eapply Forall_impl; [exact IHk|].
      intros [k a] Ha. simpl in Ha.
      apply P_bind; [exact Ha|]. intros v. apply P_ret.
    + intros vkw. apply apply_call_P.
  - apply P_bind; [exact IH|]. intros v. by apply external_P.
Qed.


Lemma env_magic_P param : allow_env = true → P _ (env_magic param).
Proof.
  intros Henv. unfold env_magic.
  destruct (parse_env param) as [|key|var value|msg|].
  - by apply P_log.
  - apply P_bind; [apply P_get_environ|]. intros [v|];
      [by apply P_log | apply P_usage_error].
  - apply P_bind; [by apply P_set_environ|]. intros _. by apply P_log.
  - apply P_usage_error.
  - apply P_stuck.
Qed.

Theorem exec_P (s : stmt) :
  admissible allow_env allow_try s = true → P _ (exec s).
Proof.
  induction s as [t|c|p|m a|m ns|x e|e|a n ps body _|e|body handler IHb IHh]
    using stmt_nested_ind; simpl; intros Hadm.
  - apply P_ret.
  - by apply P_log.
  - by apply env_magic_P.
  - apply P_bind; [by apply P_interact|]. intros _. apply P_bind_var.
  - apply P_bind; [by apply P_interact|]. intros _.
    apply seqM_P, Forall_forall. intros n _. apply P_bind_var.
  - apply P_bind; [apply eval_P|]. intros v. apply P_bind_var.
  - apply P_bind; [apply eval_P|]. intros _. apply P_ret.
  - apply P_bind_var.
  - apply P_stuck.
  - apply andb_prop in Hadm as [Hadm Hh]. apply andb_prop in Hadm as [Htry Hb].
    apply P_catch; [exact Htry| |]; apply seqM_P.
    + rewrite forallb_forall in Hb. rewrite Forall_forall in IHb |- *.
      intros s Hs. apply IHb; [exact Hs|]. apply Hb. by apply list_elem_of_In.
    + rewrite forallb_forall in Hh. rewrite Forall_forall in IHh |- *.
      intros s Hs. apply IHh; [exact Hs|]. apply Hh. by apply list_elem_of_In.
Qed.

Theorem block_P (l : list stmt) :
  forallb (admissible allow_env allow_try) l = true → P _ (seqM exec l).
Proof.
  intros H. apply seqM_P, Forall_forall. intros s Hs. apply exec_P.
  rewrite forallb_forall in H. apply H. by apply list_elem_of_In.
Qed.


Theorem run_cell_P (c : cell) :
  admissible_cell allow_env allow_try c = true → P _ (run_cell c).
Proof. destruct c; simpl; [intros _; apply P_ret | apply block_P]. Qed.

Theorem run_notebook_P (nb : notebook) :
  forallb (admissible_cell allow_env allow_try) nb = true → P _ (run_notebook nb).
Proof.
  intros H. apply seqM_P, Forall_forall. intros c Hc. apply run_cell_P.
  rewrite forallb_forall in H. apply H. by apply list_elem_of_In.
Qed.

End Generic.

(** ** Exceptions of the libraries reach the top level *)

Section Propagation.

Context {E : Type}.


Lemma clean_app (O : oracle E) h a b :
  clean O h (a ++ b) ↔ clean O h a ∧ clean O (h ++ a) b.
Proof.
  revert h. induction a as [|ev a IH]; simpl; intros h.
  - rewrite app_nil_r. tauto.
  - rewrite IH, <- app_assoc. simpl. tauto.
Qed.

Lemma clean_no_fault (O : oracle E) h pre ev post x :
  clean O h (pre ++ ev :: post) → consults ev = true →
  O (h ++ pre) ev = Some x → False.
Proof.
  intros Hc Hev HO. apply clean_app in Hc as [_ [Hc _]].
  rewrite (Hc Hev) in HO. discriminate.
Qed.


Lemma faithful_pure {A} (m : M E A) :
  (∀ O st, trace (m O st).2 = trace st ∧ ∀ x, (m O st).1 ≠ Raise (External x)) →
  faithful E A m.
Proof.
  intros H O st. destruct (H O st) as [Ht Hr]. exists [].
  rewrite app_nil_r. split; [exact Ht|].
  destruct (m O st).1 as [a|[n|msg|msg|x]|]; simpl; try exact I.
  by destruct (Hr x).
Qed.

Lemma faithful_bind A B (m : M E A) (f : A → M E B) :
  faithful E A m → (∀ a, faithful E B (f a)) → faithful E B (bind m f).
Proof.
  intros Hm Hf O st. unfold bind.
  destruct (Hm O st) as (new1 & Ht1 & Ho1).
  destruct (m O st) as [[a|e|] st1]; simpl in *.
  - destruct (Hf a O st1) as (new2 & Ht2 & Ho2).
    exists (new1 ++ new2). split; [by rewrite Ht2, Ht1, app_assoc|].
    rewrite Ht1 in Ho2.
    destruct (f a O st1).1 as [b|[n|msg|msg|x]|]; simpl in *;
      try (apply clean_app; by split).
    destruct Ho2 as (pre & ev & -> & Hc & Hev & HO).
    exists (new1 ++ pre), ev. rewrite !app_assoc.
    repeat split; [by apply clean_app | exact Hev | exact HO].
  - by exists new1.
  - by exists new1.
Qed.

Lemma faithful_interact ev : consults ev = true → faithful E _ (interact ev).
Proof.
  intros Hev O st. exists [ev]. unfold interact.
  destruct (O (trace st) ev) as [x|] eqn:HO; simpl.
  - split; [done|]. exists [], ev. rewrite app_nil_r. by repeat split.
  - split; [done|]. by split.
Qed.

Lemma faithful_log ev : consults ev = false → faithful E _ (log ev).
Proof.
  intros Hev O st. exists [ev]. simpl. split; [done|].
  split; [|done]. rewrite Hev. discriminate.
Qed.

(** Every expression, and every statement without a handler, is
    faithful. *)
Lemma eval_faithful (e : expr) : faithful E _ (eval e).
Proof.
  apply (eval_P (faithful E)); try (intros; apply faithful_pure; intros O st; by split).
  - apply faithful_bind.
  - intros x. apply faithful_pure. intros O st. unfold lookup_var.
    destruct (vars st !! x); by split.
  - apply faithful_interact.
Qed.

Lemma run_cell_faithful (c : cell) :
  admissible_cell true false c = true → faithful E _ (run_cell c).
Proof.
  apply (run_cell_P (faithful E) true false);
    try (intros; apply faithful_pure; intros O st; by split).
  - apply faithful_bind.
  - intros x. apply faithful_pure. intros O st. unfold lookup_var.
    destruct (vars st !! x); by split.
  - apply faithful_interact.
  - apply faithful_log.
Qed.

Lemma run_notebook_faithful (nb : notebook) :
  forallb (admissible_cell true false) nb = true → faithful E _ (run_notebook nb).
Proof.
  apply (run_notebook_P (faithful E) true false);
    try (intros; apply faithful_pure; intros O st; by split).
  - apply faithful_bind.
  - intros x. apply faithful_pure. intros O st. unfold lookup_var.
    destruct (vars st !! x); by split.
  - apply faithful_interact.
  - apply faithful_log.
Qed.

Lemma no_handler_admissible (s : stmt) :
  has_handler s = false → admissible true false s = true.
Proof. by destruct s. Qed.

(** The first exception that a library raises is the result of the
    computation, and nothing runs after it. *)
Theorem faithful_propagates {A} (m : M E A) :
  faithful E A m →
  ∀ O st pre ev post x,
    trace (m O st).2 = trace st ++ pre ++ ev :: post →
    consults ev = true →
    O (trace st ++ pre) ev = Some x →
    (m O st).1 = Raise (External x) ∧ post = [].
Proof.
  intros Hm O st pre ev post x Ht Hev HO.
  destruct (Hm O st) as (new & Ht' & Hr).
  rewrite Ht in Ht'. apply app_inv_head in Ht'. subst new.
  destruct (m O st).1 as [a|[n|msg|msg|x']|]; simpl in Hr;
    try (exfalso; by eapply clean_no_fault).
  destruct Hr as (pre' & ev' & Heq & Hc & _ & HO').
  destruct post as [|p post _] using rev_ind.
  - apply app_inj_tail in Heq as [-> ->].
    rewrite HO in HO'. by inversion HO'.
  - exfalso. rewrite app_comm_cons, app_assoc in Heq.
    apply app_inj_tail in Heq as [<- _].
    by eapply clean_no_fault.
Qed.

End Propagation.

(** ** A run is a prefix of the run without faults

    The libraries decide only whether a call raises, so a run of
    handler-free code under any oracle either is the run in which no
    library raises, or stops early at an external exception having
    performed a prefix of its events. *)

Section Determinism.

Context {E : Type}.


Lemma steady_pure {A} (m : M E A) :
  (∀ O st, m O st = m no_fault st) →
  (∀ st, trace st `prefix_of` trace (m no_fault st).2) →
  steady E A m.
Proof.
  intros Heq Hg. split.
  - intros O st. rewrite Heq. apply Hg.
  - intros O st. left. apply Heq.
Qed.

Lemma steady_bind A B (m : M E A) (f : A → M E B) :
  steady E A m → (∀ a, steady E B (f a)) → steady E B (bind m f).
Proof.
  intros [Hgm Ham] Hf. split.
  - intros O st. unfold bind. specialize (Hgm O st).
    destruct (m O st) as [[a|e|] st1]; simpl in *; [|done..].
    etrans; [exact Hgm|]. apply (Hf a).
  - intros O st. unfold bind.
    destruct (Ham O st) as [Heq|[[x Hx] Hpre]].
    + rewrite Heq. destruct (m no_fault st) as [[a|e|] st1]; [|by left..].
      apply (Hf a).
    + right. destruct (m O st) as [[a|e|] st1]; simpl in *; try discriminate.
      injection Hx as ->. split; [by exists x|].
      pose proof (Hgm no_fault st) as Hg0.
      destruct (m no_fault st) as [[a0|e0|] st0]; simpl in *; [|done..].
      etrans; [exact Hpre|]. apply (Hf a0).
Qed.

Lemma steady_interact ev : steady E _ (interact ev).
Proof.
  split.
  - intros O st. unfold interact.
    destruct (O (trace st) ev); simpl; by apply prefix_app_r.
  - intros O st. unfold interact, no_fault.
    destruct (O (trace st) ev) as [x|]; [right|by left].
    simpl. split; [by exists x|done].
Qed.

Lemma run_notebook_steady (nb : notebook) :
  forallb (admissible_cell true false) nb = true → steady E _ (run_notebook nb).
Proof.
  apply (run_notebook_P (steady E) true false);
    try (intros; by apply steady_pure).
  - apply steady_bind.
  - intros x. apply steady_pure; [done|]. intros st. unfold lookup_var.
    by destruct (vars st !! x).
  - intros ev _. apply steady_interact.
  - intros ev _. apply steady_pure; [done|]. intros st. by apply prefix_app_r.
Qed.

(** Every event of a run under any oracle is an event of the run
    without faults. *)
Corollary events_of_any_run (nb : notebook) (O : oracle E) (st : state) (ev : event) :
  forallb (admissible_cell true false) nb = true →
  ev ∈ trace (run_notebook nb O st).2 →
  ev ∈ trace (run_notebook (E:=E) nb no_fault st).2.
Proof.
  intros Hnb Hev. destruct (run_notebook_steady nb Hnb) as [_ Ha].
  destruct (Ha O st) as [Heq|[_ [k Hk]]].
  - by rewrite <- Heq.
  - rewrite Hk. apply elem_of_app. by left.
Qed.

End Determinism.


(** ** Checking every statement of both notebooks *)

Lemma in_notebooks (P : notebook → Prop) :
  P matplotlib_nb → P transformers_nb → ∀ nb, nb ∈ notebooks → P nb.
Proof.
  intros Hm Ht nb Hnb. apply list_elem_of_In in Hnb.
  destruct Hnb as [<-|[<-|[]]]; assumption.
Qed.

Lemma every_stmt (f : stmt → bool) :
  forallb (forallb (cell_forallb f)) notebooks = true →
  ∀ nb src s, nb ∈ notebooks → Code src ∈ nb → s ∈ src → f s = true.
Proof.
  intros H nb src s Hnb Hc Hs.
  rewrite forallb_forall in H. apply list_elem_of_In in Hnb, Hc, Hs.
  specialize (H nb Hnb). rewrite forallb_forall in H.
  specialize (H (Code src) Hc). simpl in H.
  rewrite forallb_forall in H. by apply H.
Qed.

Lemma every_cell (f : cell → bool) :
  forallb (forallb f) notebooks = true →
  ∀ nb c, nb ∈ notebooks → c ∈ nb → f c = true.
Proof.
  intros H nb c Hnb Hc.
  rewrite forallb_forall in H. apply list_elem_of_In in Hnb, Hc.
  specialize (H nb Hnb). rewrite forallb_forall in H. by apply H.
Qed.

Lemma before_b_sound xs ys : before_b xs ys = true → before xs ys.
Proof.
  unfold before_b, before. rewrite forallb_forall. intros H i j Hi Hj.
  apply list_elem_of_In in Hi, Hj. specialize (H i Hi).
  rewrite forallb_forall in H. apply Nat.ltb_lt. by apply H.
Qed.

Lemma handler_free_cell (c : cell) :
  cell_forallb (λ s, negb (has_handler s)) c = true →
  admissible_cell true false c = true.
Proof.
  destruct c as [|src]; simpl; [done|].
  rewrite !forallb_forall. intros H s Hs.
  apply no_handler_admissible. specialize (H s Hs). by apply negb_true_iff in H.
Qed.

Lemma handler_free_notebooks :
  forallb (forallb (cell_forallb (λ s, negb (has_handler s)))) notebooks = true.
Proof. vm_compute. reflexivity. Qed.

Lemma notebooks_admissible (nb : notebook) :
  nb ∈ notebooks → forallb (admissible_cell true false) nb = true.
Proof.
  revert nb. apply in_notebooks; vm_compute; reflexivity.
Qed.

(** ** C2: exceptions of the libraries are not handled *)

(** C2.  No statement of either notebook contains an exception
    handler; and when a library raises during a cell, or during a run
    of the whole notebook, the exception it raised is the result, as
    raised, and no later event takes place.  A run of a notebook in a
    fresh kernel either completes or ends with the exception of a
    library. *)
Theorem library_exceptions_propagate :
  (∀ nb src s, nb ∈ notebooks → Code src ∈ nb → s ∈ src → has_handler s = false) ∧
  (∀ nb c, nb ∈ notebooks → c ∈ nb →
     ∀ (E : Type) (O : oracle E) st pre ev post x,
       trace (run_cell c O st).2 = trace st ++ pre ++ ev :: post →
       consults ev = true →
       O (trace st ++ pre) ev = Some x →
       (run_cell c O st).1 = Raise (External x) ∧ post = []) ∧
  (∀ nb, nb ∈ notebooks →
     ∀ (E : Type) (O : oracle E) st pre ev post x,
       trace (run_notebook nb O st).2 = trace st ++ pre ++ ev :: post →
       consults ev = true →
       O (trace st ++ pre) ev = Some x →
       (run_notebook nb O st).1 = Raise (External x) ∧ post = []) ∧
  (∀ nb, nb ∈ notebooks →
     ∀ (E : Type) (O : oracle E) env0,
       (run_notebook nb O (initial_state env0)).1 = Ok tt ∨
       ∃ x, (run_notebook nb O (initial_state env0)).1 = Raise (External x)).
Proof.
  split; [|split; [|split]].
  - intros nb src s Hnb Hc Hs.
    pose proof (every_stmt _ handler_free_notebooks nb src s Hnb Hc Hs) as H.
    by apply negb_true_iff in H.
  - intros nb c Hnb Hc E O st pre ev post x.
    apply faithful_propagates, run_cell_faithful, handler_free_cell.
    by apply (every_cell _ handler_free_notebooks nb).
  - intros nb Hnb E O st pre ev post x.
    by apply faithful_propagates, run_notebook_faithful, notebooks_admissible.
  - intros nb Hnb E O env0.
    destruct (run_notebook_steady (E:=E) nb (notebooks_admissible nb Hnb)) as [_ Ha].
    destruct (Ha O (initial_state env0)) as [Heq|[Hx _]]; [left|right; exact Hx].
    rewrite Heq. revert nb Hnb Ha Heq.
    apply (in_notebooks (λ nb, _ → _ → (run_notebook nb no_fault _).1 = Ok tt));
      intros _ _; vm_compute; reflexivity.
Qed.

(** A handler would make the difference: wrapped in [try], the failing
    import of seaborn is recovered from and the statement succeeds. *)
Example handler_would_recover :
  exec (STry [SImportAs "seaborn" "sns"] [SComment "ignored"]) seaborn_missing
       (initial_state ∅)
  = (Ok tt, mkState ∅ ∅ 0 [EvImport "seaborn"]).
Proof. reflexivity. Qed.

(** The events of the transformers notebook when no library raises. *)
Example transformers_events :
  trace (run_notebook (E:=Empty_set) transformers_nb no_fault (initial_state ∅)).2
  = [EvSetEnv "CLEARML_WEB_HOST" EmptyString;
     EvSetEnv "CLEARML_API_HOST" EmptyString;
     EvSetEnv "CLEARML_FILES_HOST" EmptyString;
     EvSetEnv "CLEARML_API_ACCESS_KEY" EmptyString;
     EvSetEnv "CLEARML_API_SECRET_KEY" EmptyString;
     EvSetEnv "CLEARML_LOG_MODEL" "True";
     EvShell " pip install clearml";
     EvShell " pip install transformers[torch] datasets";
     EvShell "pip install accelerate -U";
     EvImport "transformers";
     EvCall 0 (VAttr (VAttr (VModule "transformers") "AutoModelForSequenceClassification")
                 "from_pretrained") [VStr "distilbert-base-uncased"] [];
     EvImport "transformers";
     EvCall 1 (VAttr (VModule "transformers") "TrainingArguments") []
       [("output_dir", VStr "path/to/save/folder/");
        ("learning_rate", VFloat "2e-5");
        ("per_device_train_batch_size", VInt 8);
        ("per_device_eval_batch_size", VInt 8);
        ("num_train_epochs", VInt 2);
        ("report_to", VList [VStr "clearml"])];
     EvImport "transformers";
     EvCall 2 (VAttr (VAttr (VModule "transformers") "AutoTokenizer") "from_pretrained")
       [VStr "distilbert-base-uncased"] [];
     EvImport "datasets";
     EvCall 3 (VAttr (VModule "datasets") "load_dataset") [VStr "rotten_tomatoes"] [];
     EvCall 4 (VAttr (VObj 3) "map") [VFunc "tokenize_dataset"] [("batched", VBool true)];
     EvImport "transformers";
     EvCall 5 (VAttr (VModule "transformers") "DataCollatorWithPadding") []
       [("tokenizer", VObj 2)];
     EvImport "transformers";
     EvSubscript 6 (VObj 4) (VStr "train");
     EvSubscript 7 (VObj 4) (VStr "test");
     EvCall 8 (VAttr (VModule "transformers") "Trainer") []
       [("model", VObj 0); ("args", VObj 1); ("train_dataset", VObj 6);
        ("eval_dataset", VObj 7); ("tokenizer", VObj 2); ("data_collator", VObj 5)];
     EvCall 9 (VAttr (VObj 8) "train") [] []].
Proof. vm_compute. reflexivity. Qed.

(** The matplotlib cell that imports seaborn, on a machine without it:
    the import error is the result of the cell. *)
Lemma library_exceptions_propagate_witness :
  matplotlib_nb ∈ notebooks ∧ Code mpl_init ∈ matplotlib_nb ∧
  trace (run_cell (Code mpl_init) seaborn_missing (initial_state ∅)).2
    = [] ++ [EvImport "matplotlib.pyplot"; EvImport "numpy"] ++ EvImport "seaborn" :: [] ∧
  (run_cell (Code mpl_init) seaborn_missing (initial_state ∅)).1
    = Raise (External "ModuleNotFoundError").
Proof.
  assert (Hnb : matplotlib_nb ∈ notebooks) by (apply list_elem_of_In; left; reflexivity).
  assert (Hc : Code mpl_init ∈ matplotlib_nb)
    by (apply list_elem_of_In; do 4 right; left; reflexivity).
  assert (Ht : trace (run_cell (Code mpl_init) seaborn_missing (initial_state ∅)).2
    = [] ++ [EvImport "matplotlib.pyplot"; EvImport "numpy"] ++ EvImport "seaborn" :: [])
    by (vm_compute; reflexivity).
  split; [exact Hnb|]. split; [exact Hc|]. split; [exact Ht|].
  exact (proj1 (proj1 (proj2 library_exceptions_propagate)
                  matplotlib_nb (Code mpl_init) Hnb Hc string seaborn_missing
                  (initial_state ∅) _ _ _ "ModuleNotFoundError" Ht eq_refl eq_refl)).
Defined.

(** ** The [%env] magic on examples *)

Example parse_env_set_empty :
  parse_env "CLEARML_WEB_HOST=" = EnvSet "CLEARML_WEB_HOST" EmptyString.
Proof. reflexivity. Qed.

Example parse_env_set_value :
  parse_env "CLEARML_LOG_MODEL=True" = EnvSet "CLEARML_LOG_MODEL" "True".
Proof. reflexivity. Qed.

Example parse_env_set_blank : parse_env "EDITOR vi" = EnvSet "EDITOR" "vi".
Proof. reflexivity. Qed.

Example parse_env_get : parse_env "HOME" = EnvGet "HOME".
Proof. reflexivity. Qed.

Example parse_env_list : parse_env EmptyString = EnvList.
Proof. reflexivity. Qed.

Example parse_env_refused :
  parse_env "cmd args=1" = EnvUsage "refusing to set env var with whitespace".
Proof. reflexivity. Qed.

(** The unit separator (31) is whitespace for Python. *)
Example parse_env_refused_separator :
  parse_env (String "A" (String (Ascii.ascii_of_nat 31) "B=1"))
  = EnvUsage "refusing to set env var with whitespace".
Proof. reflexivity. Qed.

(** ** Running cells step by step *)

Lemma seqM_cons_ok {E A} (f : A → M E unit) a l (O : oracle E) st st' :
  f a O st = (Ok tt, st') → seqM f (a :: l) O st = seqM f l O st'.
Proof. intros H. simpl. unfold bind. by rewrite H. Qed.

Lemma exec_env_set {E} (O : oracle E) st param var value :
  parse_env param = EnvSet var value →
  exec (SEnvMagic param) O st
  = (Ok tt, mkState (vars st) (<[var := value]> (environ st)) (next_id st)
                    (trace st ++ [EvSetEnv var value])).
Proof. intros H. simpl. unfold env_magic. rewrite H. reflexivity. Qed.

Lemma run_hf_credentials {E} (O : oracle E) st :
  run_cell (Code hf_credentials) O st
  = (Ok tt, mkState (vars st) (credentials_set (environ st)) (next_id st)
              (trace st ++ [EvSetEnv "CLEARML_WEB_HOST" EmptyString;
                            EvSetEnv "CLEARML_API_HOST" EmptyString;
                            EvSetEnv "CLEARML_FILES_HOST" EmptyString;
                            EvSetEnv "CLEARML_API_ACCESS_KEY" EmptyString;
                            EvSetEnv "CLEARML_API_SECRET_KEY" EmptyString])).
Proof.
  unfold run_cell, hf_credentials.
  rewrite (seqM_cons_ok _ _ _ O st st) by reflexivity.
  repeat (erewrite seqM_cons_ok;
          [|apply exec_env_set; vm_compute; reflexivity]).
  cbn [seqM ret vars environ next_id trace]. rewrite <- !app_assoc. reflexivity.
Qed.

Lemma run_hf_log_model {E} (O : oracle E) st :
  run_cell (Code hf_log_model) O st
  = (Ok tt, mkState (vars st) (log_model_set (environ st)) (next_id st)
              (trace st ++ [EvSetEnv "CLEARML_LOG_MODEL" "True"])).
Proof.
  unfold run_cell, hf_log_model.
  rewrite (seqM_cons_ok _ _ _ O st st) by reflexivity.
  erewrite seqM_cons_ok; [|apply exec_env_set; vm_compute; reflexivity].
  reflexivity.
Qed.

(** A check on the events of the run without faults holds of the
    events of every run. *)
Lemma every_event {E} (f : event → bool) (nb : notebook) (st : state) :
  nb ∈ notebooks →
  forallb f (trace (run_notebook (E:=E) nb no_fault st).2) = true →
  ∀ (O : oracle E) ev, ev ∈ trace (run_notebook nb O st).2 → f ev = true.
Proof.
  intros Hnb H O ev Hev. rewrite forallb_forall in H. apply H.
  apply list_elem_of_In. eapply events_of_any_run; [|exact Hev].
  by apply notebooks_admissible.
Qed.

Lemma none_in_list (ws l : list string) :
  forallb (λ w, negb (in_list w l)) ws = true → ∀ w, w ∈ ws → w ∉ l.
Proof.
  intros H w Hw. rewrite forallb_forall in H. apply list_elem_of_In in Hw.
  specialize (H w Hw). apply negb_true_iff in H.
  unfold in_list in H. by apply bool_decide_eq_false in H.
Qed.

(** ** C9: the environment after the credential cells *)

(** C9.  Run as they are, the two credential cells of the transformers
    notebook succeed; the first sets the five credential variables to
    the empty string, the second sets CLEARML_LOG_MODEL to the string
    True; CLEARML_TASK and CLEARML_PROJECT are left as they were,
    their [%env] lines being comments. *)
Theorem credential_cells_set_environ (E : Type) (O : oracle E) (st : state) :
  let r1 := run_cell (Code hf_credentials) O st in
  let r2 := run_cell (Code hf_log_model) O r1.2 in
  r1.1 = Ok tt ∧
  environ r1.2 !! "CLEARML_WEB_HOST" = Some EmptyString ∧
  environ r1.2 !! "CLEARML_API_HOST" = Some EmptyString ∧
  environ r1.2 !! "CLEARML_FILES_HOST" = Some EmptyString ∧
  environ r1.2 !! "CLEARML_API_ACCESS_KEY" = Some EmptyString ∧
  environ r1.2 !! "CLEARML_API_SECRET_KEY" = Some EmptyString ∧
  r2.1 = Ok tt ∧
  environ r2.2 = log_model_set (credentials_set (environ st)) ∧
  environ r2.2 !! "CLEARML_LOG_MODEL" = Some "True" ∧
  environ r2.2 !! "CLEARML_TASK" = environ st !! "CLEARML_TASK" ∧
  environ r2.2 !! "CLEARML_PROJECT" = environ st !! "CLEARML_PROJECT" ∧
  SComment "%env CLEARML_TASK=" ∈ hf_log_model ∧
  SComment "%env CLEARML_PROJECT=" ∈ hf_log_model.
Proof.
  cbv zeta. rewrite run_hf_credentials. cbn [fst snd].
  rewrite run_hf_log_model. cbn [fst snd environ].
  unfold log_model_set, credentials_set.
  repeat split; try (by simplify_map_eq);
    apply list_elem_of_In; vm_compute; tauto.
Qed.

(** ** C4: what the transformers notebook tells the tracker *)

(** C4, as stated, does not hold: besides the environment variables,
    the notebook configures the tracking by an explicit argument,
    [report_to=['clearml']] of [TrainingArguments]. *)
Lemma environ_only_refuted : ¬ claimed_environ_only.
Proof.
  intros H.
  assert (Hin : (10%nat, PassesArgument "TrainingArguments" (Some "report_to")
                           (EList [EStr "clearml"]))
                ∈ tracker_settings transformers_nb)
    by (apply list_elem_of_In; vm_compute; tauto).
  specialize (H _ _ Hin). discriminate H.
Qed.

(** The explicit configuration of a session is seen where there is
    one: the matplotlib notebook calls [Task.init] with a project and
    a task name. *)
Example matplotlib_calls_the_tracker :
  tracker_settings matplotlib_nb
  = [(4%nat, CallsTracker "Task.init" []
               [("project_name", EStr "Colab notebooks");
                ("task_name", EStr "Matplotlib example")])].
Proof. vm_compute. reflexivity. Qed.

(** The cells before the first import: the six variables are set and
    the three installations run; no library has run yet. *)
Lemma run_transformers_setup {E} (O : oracle E) st :
  run_notebook transformers_setup O st
  = (Ok tt, mkState (vars st) (log_model_set (credentials_set (environ st)))
              (next_id st)
              (trace st ++ credential_events
                 ++ [EvShell " pip install clearml";
                     EvShell " pip install transformers[torch] datasets";
                     EvShell "pip install accelerate -U"])).
Proof.
  unfold run_notebook, transformers_setup, transformers_nb. cbn [take].
  do 2 (rewrite (seqM_cons_ok _ _ _ O st st) by reflexivity).
  erewrite seqM_cons_ok; [|apply run_hf_credentials].
  erewrite seqM_cons_ok; [|apply run_hf_log_model].
  erewrite seqM_cons_ok; [|reflexivity].
  erewrite seqM_cons_ok; [|reflexivity].
  do 2 (erewrite seqM_cons_ok; [|reflexivity]).
  cbn [seqM ret vars environ next_id trace].
  rewrite <- !app_assoc. reflexivity.
Qed.

(** C4.  What the transformers notebook tells the tracker is: the six
    [%env] assignments, to CLEARML_WEB_HOST, CLEARML_API_HOST,
    CLEARML_FILES_HOST, CLEARML_API_ACCESS_KEY, CLEARML_API_SECRET_KEY
    and CLEARML_LOG_MODEL, with the values written on the lines, and
    one explicit argument, [report_to=['clearml']] of
    [TrainingArguments].  It has no other [%env] line, imports only
    from transformers and datasets, and under any behaviour of the
    libraries no event of a run imports the tracker or calls into it;
    the one shell command that names the tracker installs its package.
    Every name that the notebook mentions is one it binds itself, so
    it uses no builtin and nothing that the kernel provides; no
    expression names one of the variables or a way of reading the
    environment, and no event reads a variable back.  When the cells
    before the first import have run, the environment is the one the
    kernel started with, with the six variables set as written, and no
    library has run; the rest of the notebook, which begins with the
    import of transformers, has no [%env] line. *)
Theorem tracking_session_configuration :
  tracker_settings transformers_nb
    = [(2%nat, SetsVariable "CLEARML_WEB_HOST" EmptyString);
       (2%nat, SetsVariable "CLEARML_API_HOST" EmptyString);
       (2%nat, SetsVariable "CLEARML_FILES_HOST" EmptyString);
       (2%nat, SetsVariable "CLEARML_API_ACCESS_KEY" EmptyString);
       (2%nat, SetsVariable "CLEARML_API_SECRET_KEY" EmptyString);
       (3%nat, SetsVariable "CLEARML_LOG_MODEL" "True");
       (10%nat, PassesArgument "TrainingArguments" (Some "report_to")
                  (EList [EStr "clearml"]))] ∧
  env_requests transformers_nb
    = [EnvSet "CLEARML_WEB_HOST" EmptyString;
       EnvSet "CLEARML_API_HOST" EmptyString;
       EnvSet "CLEARML_FILES_HOST" EmptyString;
       EnvSet "CLEARML_API_ACCESS_KEY" EmptyString;
       EnvSet "CLEARML_API_SECRET_KEY" EmptyString;
       EnvSet "CLEARML_LOG_MODEL" "True"] ∧
  remove_dups (flat_map imported_modules (all_stmts transformers_nb))
    = ["datasets"; "transformers"] ∧
  List.filter (λ ic : nat * string, names_tracker ic.2) (shell_commands transformers_nb)
    = [(5%nat, " pip install clearml")] ∧
  foreign_names transformers_nb = [] ∧
  (∀ (E : Type) (O : oracle E) env0 ev,
     ev ∈ trace (run_notebook transformers_nb O (initial_state env0)).2 →
     event_in_tracker ev = false ∧ is_env_read ev = false) ∧
  (∀ w, w ∈ clearml_env_vars ++ environ_readers →
        w ∉ notebook_words transformers_nb) ∧
  (∀ (E : Type) (O : oracle E) st,
     run_notebook transformers_setup O st
     = (Ok tt, mkState (vars st) (log_model_set (credentials_set (environ st)))
                 (next_id st)
                 (trace st ++ credential_events
                    ++ [EvShell " pip install clearml";
                        EvShell " pip install transformers[torch] datasets";
                        EvShell "pip install accelerate -U"]))) ∧
  forallb (λ ev, negb (consults ev))
    (credential_events
       ++ [EvShell " pip install clearml";
           EvShell " pip install transformers[torch] datasets";
           EvShell "pip install accelerate -U"]) = true ∧
  transformers_nb = transformers_setup ++ transformers_work ∧
  head (notebook_source transformers_work)
    = Some (SFromImport "transformers" ["AutoModelForSequenceClassification"]) ∧
  forallb (cell_forallb (λ s, negb (uses_env_magic s))) transformers_work = true.
Proof.
  do 5 (split; [vm_compute; reflexivity|]).
  split; [|split; [|split; [|do 3 (split; [vm_compute; reflexivity|]);
                             vm_compute; reflexivity]]].
  - intros E O env0 ev Hev.
    assert (Hnb : transformers_nb ∈ notebooks)
      by (apply list_elem_of_In; right; left; reflexivity).
    pose proof (every_event (E:=E)
                  (λ ev, negb (event_in_tracker ev) && negb (is_env_read ev))
                  transformers_nb (initial_state env0) Hnb
                  ltac:(vm_compute; reflexivity) O ev Hev) as H.
    apply andb_prop in H as [H1 H2].
    by rewrite negb_true_iff in H1, H2.
  - apply none_in_list. vm_compute. reflexivity.
  - intros E O st. apply run_transformers_setup.
Qed.

(** An instance: the variable CLEARML_WEB_HOST is named by no
    expression of the notebook. *)
Lemma tracking_session_configuration_witness :
  "CLEARML_WEB_HOST" ∈ clearml_env_vars ++ environ_readers ∧
  "CLEARML_WEB_HOST" ∉ notebook_words transformers_nb.
Proof.
  assert (H : "CLEARML_WEB_HOST" ∈ clearml_env_vars ++ environ_readers)
    by (apply list_elem_of_In; left; reflexivity).
  split; [exact H|].
  exact (proj1 (proj2 (proj2 (proj2 (proj2 (proj2 (proj2
            tracking_session_configuration)))))) _ H).
Defined.

Lemma forallb_elem {A} (f : A → bool) (l : list A) (x : A) :
  forallb f l = true → x ∈ l → f x = true.
Proof.
  intros H Hx. rewrite forallb_forall in H. apply H. by apply list_elem_of_In.
Qed.

Lemma matplotlib_in_notebooks : matplotlib_nb ∈ notebooks.
Proof. apply list_elem_of_In. left. reflexivity. Defined.

Lemma transformers_in_notebooks : transformers_nb ∈ notebooks.
Proof. apply list_elem_of_In. right. left. reflexivity. Defined.

(** ** C1: the order of the steps *)

(** C1, as stated, does not hold: in the transformers notebook the
    install cell (5) comes after the credential cells (2 and 3); and
    the matplotlib notebook makes six plot calls. *)
Lemma step_order_refuted :
  phase_cells Install transformers_nb = [5%nat] ∧
  phase_cells Configure transformers_nb = [2%nat; 3%nat] ∧
  length (run_plot_calls matplotlib_nb) = 6%nat ∧
  ¬ claimed_step_order.
Proof.
  do 3 (split; [vm_compute; reflexivity|]).
  intros [Hic _].
  assert (Hlt : (5 < 2)%nat); [|lia].
  apply Hic; apply list_elem_of_In; vm_compute; tauto.
Qed.

(** C1, amended.  In the transformers notebook every credential cell
    precedes every install cell, every install cell precedes every cell
    that constructs a library object, and these precede the one run
    call, [trainer.train()]; its events happen in that order.  The
    matplotlib notebook configures no credentials; its install cell
    precedes every constructing cell, the [Task.init] cell precedes
    every plot cell, and it makes six plot calls, one per plot cell.
    Within every code cell of both notebooks the statements follow the
    order install, configure, construct, run or plot, display. *)
Theorem step_order_of_the_notebooks :
  before (phase_cells Configure transformers_nb) (phase_cells Install transformers_nb) ∧
  before (phase_cells Install transformers_nb) (phase_cells Construct transformers_nb) ∧
  before (phase_cells Construct transformers_nb) (phase_cells Run transformers_nb) ∧
  run_plot_calls transformers_nb = [(22%nat, "trainer.train")] ∧
  (∀ env0,
     nondecreasing
       (event_rank <$> trace (run_notebook (E:=Empty_set) transformers_nb no_fault
                                (initial_state env0)).2) = true) ∧
  phase_cells Configure matplotlib_nb = [] ∧
  before (phase_cells Install matplotlib_nb) (phase_cells Construct matplotlib_nb) ∧
  before (fst <$> calls_named ["init"] false matplotlib_nb) (phase_cells Run matplotlib_nb) ∧
  run_plot_calls matplotlib_nb
    = [(6%nat, "plt.scatter"); (7%nat, "plt.plot"); (9%nat, "plt.imshow");
       (10%nat, "plt.imshow"); (11%nat, "plt.scatter"); (13%nat, "sns.lineplot")] ∧
  (∀ nb i src, nb ∈ notebooks → (i, src) ∈ code_cells nb →
     nondecreasing (phase_rank <$> cell_phases src) = true).
Proof.
  repeat match goal with
         | |- before _ _ ∧ _ => split; [apply before_b_sound; vm_compute; reflexivity|]
         | |- _ = _ ∧ _ => split; [vm_compute; reflexivity|]
         | |- (∀ env0, _) ∧ _ => split; [intros env0; vm_compute; reflexivity|]
         end.
  intros nb i src Hnb. revert i src. revert nb Hnb.
  apply (in_notebooks (λ nb, ∀ i src, (i, src) ∈ code_cells nb → _));
    intros i src Hin;
    match type of Hin with
    | _ ∈ code_cells ?nb =>
        assert (H : forallb (λ ic : nat * list stmt,
                               nondecreasing (phase_rank <$> cell_phases ic.2))
                      (code_cells nb) = true) by (vm_compute; reflexivity)
    end;
    exact (forallb_elem _ _ _ H Hin).
Qed.

(** The scatter cell of the matplotlib notebook: four constructions,
    the plot, the display. *)
Lemma step_order_of_the_notebooks_witness :
  matplotlib_nb ∈ notebooks ∧ (6%nat, mpl_scatter) ∈ code_cells matplotlib_nb ∧
  nondecreasing (phase_rank <$> cell_phases mpl_scatter) = true.
Proof.
  assert (Hin : (6%nat, mpl_scatter) ∈ code_cells matplotlib_nb)
    by (apply list_elem_of_In; do 3 right; left; reflexivity).
  split; [exact matplotlib_in_notebooks|]. split; [exact Hin|].
  exact (proj2 (proj2 (proj2 (proj2 (proj2 (proj2 (proj2 (proj2 (proj2
           step_order_of_the_notebooks))))))))
           matplotlib_nb 6%nat mpl_scatter matplotlib_in_notebooks Hin).
Defined.

(** ** C3: assignments of the variables *)

(** C3, as stated, does not hold: [dataset] is assigned twice in the
    transformers notebook. *)
Lemma single_assignment_refuted :
  assignments hf_dataset
    = [("dataset", call (EName "load_dataset") [EStr "rotten_tomatoes"])] ∧
  assignments hf_tokenize
    = [("dataset", ECall (attr2 "dataset" "map") [EName "tokenize_dataset"]
                     [("batched", EBool true)])] ∧
  assign_count transformers_nb "dataset" = 2%nat ∧
  ¬ claimed_single_assignment.
Proof.
  do 3 (split; [vm_compute; reflexivity|]).
  intros H. specialize (H transformers_nb "dataset" transformers_in_notebooks).
  assert (Hc : assign_count transformers_nb "dataset" = 2%nat)
    by (vm_compute; reflexivity).
  rewrite Hc in H. assert (2 = 1)%nat; [|lia].
  apply H. apply list_elem_of_In. vm_compute. tauto.
Qed.

(** C3, amended.  Of the variables bound to library objects, [task],
    [fmri], [model], [training_args], [tokenizer], [data_collator] and
    [trainer] are assigned once; [dataset] is assigned twice, [m],
    [colors] and [area] twice, [x] and [y] three times.  No variable is
    assigned from another variable.  In the run of the transformers
    notebook the second assignment binds [dataset] to the object that
    [dataset.map] returns, not the one [load_dataset] returned. *)
Theorem assignment_counts :
  (λ x, (x, assign_count matplotlib_nb x)) <$> library_vars matplotlib_nb
    = [("task", 1); ("m", 2); ("x", 3); ("y", 3); ("colors", 2); ("area", 2);
       ("fmri", 1)]%nat ∧
  (λ x, (x, assign_count transformers_nb x)) <$> library_vars transformers_nb
    = [("model", 1); ("training_args", 1); ("tokenizer", 1); ("dataset", 2);
       ("data_collator", 1); ("trainer", 1)]%nat ∧
  forallb (λ xe : string * expr, negb (is_alias xe.2))
    (notebook_assignments matplotlib_nb ++ notebook_assignments transformers_nb) = true ∧
  (∀ env0,
     let st := (run_notebook (E:=Empty_set) transformers_nb no_fault
                  (initial_state env0)).2 in
     vars st !! "dataset" = Some (VObj 4) ∧
     EvCall 3 (VAttr (VModule "datasets") "load_dataset") [VStr "rotten_tomatoes"] []
       ∈ trace st ∧
     EvCall 4 (VAttr (VObj 3) "map") [VFunc "tokenize_dataset"] [("batched", VBool true)]
       ∈ trace st).
Proof.
  do 3 (split; [vm_compute; reflexivity|]).
  intros env0. cbv zeta.
  split; [vm_compute; reflexivity|].
  split; apply list_elem_of_In; vm_compute; tauto.
Qed.

(** ** C5: what the notebooks ask of the local file system *)

(** C5, as stated, does not hold: the installation cell of the
    transformers notebook runs [pip install], which changes the local
    file system, and is code of the repository. *)
Lemma only_savefig_refuted : ¬ claimed_only_savefig.
Proof.
  intros H.
  assert (Hin : (5%nat, RunsCommand " pip install clearml") ∈ fs_requests transformers_nb)
    by (apply list_elem_of_In; vm_compute; tauto).
  destruct (H _ _ _ transformers_in_notebooks Hin) as [_ Hr]. discriminate Hr.
Qed.

(** Other requests would be seen: a command that removes a directory,
    a file name handed to [np.savetxt]. *)
Example other_requests_would_be_seen :
  fs_requests [Code [SShell "rm -rf results";
                     SExpr (call (attr2 "np" "savetxt") [EStr "out.txt"; EName "m"])]]
  = [(0%nat, RunsCommand "rm -rf results");
     (0%nat, NamesPath "np.savetxt" None "out.txt")].
Proof. reflexivity. Qed.

(** C5.  What the notebooks ask of the local file system is: in the
    matplotlib notebook the shell command [pip install seaborn] and
    the file name [plot.png], handed to [plt.savefig]; in the
    transformers notebook three [pip install] commands and the
    directory [path/to/save/folder/], handed to [TrainingArguments] as
    [output_dir].  The call of [savefig] has one positional argument
    and no keyword.  These two are the only paths among all the string
    literals that the calls of the notebooks hand over, and every shell
    command is a pip install.  In every run, under any behaviour of the
    libraries, an event asks of the file system only what is listed
    here, and the run without faults asks each once.  The object that
    [TrainingArguments] returns is used by the call of [Trainer]
    alone, and the object that [Trainer] returns by the call of its
    [train] method alone. *)
Theorem file_system_requests :
  fs_requests matplotlib_nb
    = [(2%nat, RunsCommand "pip install seaborn");
       (11%nat, NamesPath "plt.savefig" None "plot.png")] ∧
  fs_requests transformers_nb
    = [(5%nat, RunsCommand " pip install clearml");
       (5%nat, RunsCommand " pip install transformers[torch] datasets");
       (5%nat, RunsCommand "pip install accelerate -U");
       (10%nat, NamesPath "TrainingArguments" (Some "output_dir")
                  "path/to/save/folder/")] ∧
  path_calls matplotlib_nb
    = [(11%nat, ECall (attr2 "plt" "savefig") [EStr "plot.png"] [])] ∧
  string_arguments matplotlib_nb
    = [(4%nat, ("Task.init", Some "project_name", "Colab notebooks"));
       (4%nat, ("Task.init", Some "task_name", "Matplotlib example"));
       (7%nat, ("plt.plot", None, "o"));
       (7%nat, ("plt.plot", Some "color", "pink"));
       (10%nat, ("plt.title", None, "Image Title"));
       (11%nat, ("plt.title", None, "savefig Image"));
       (11%nat, ("plt.savefig", None, "plot.png"));
       (13%nat, ("sns.set", Some "style", "darkgrid"));
       (13%nat, ("sns.load_dataset", None, "fmri"));
       (13%nat, ("sns.lineplot", Some "x", "timepoint"));
       (13%nat, ("sns.lineplot", Some "y", "signal"));
       (13%nat, ("sns.lineplot", Some "hue", "region"));
       (13%nat, ("sns.lineplot", Some "style", "event"))] ∧
  string_arguments transformers_nb
    = [(8%nat, ("AutoModelForSequenceClassification.from_pretrained", None,
                "distilbert-base-uncased"));
       (10%nat, ("TrainingArguments", Some "output_dir", "path/to/save/folder/"));
       (10%nat, ("TrainingArguments", Some "report_to", "clearml"));
       (12%nat, ("AutoTokenizer.from_pretrained", None, "distilbert-base-uncased"));
       (14%nat, ("load_dataset", None, "rotten_tomatoes"))] ∧
  forallb is_pip_install
    (List.filter (λ s, match s with SShell _ => true | _ => false end)
       (all_stmts matplotlib_nb ++ all_stmts transformers_nb)) = true ∧
  (∀ (E : Type) (O : oracle E) env0 ev r,
     ev ∈ trace (run_notebook matplotlib_nb O (initial_state env0)).2 →
     r ∈ event_fs_requests ev →
     r ∈ [RunsCommand "pip install seaborn";
          NamesPath "matplotlib.pyplot.savefig" None "plot.png"]) ∧
  (∀ (E : Type) (O : oracle E) env0 ev r,
     ev ∈ trace (run_notebook transformers_nb O (initial_state env0)).2 →
     r ∈ event_fs_requests ev →
     r ∈ [RunsCommand " pip install clearml";
          RunsCommand " pip install transformers[torch] datasets";
          RunsCommand "pip install accelerate -U";
          NamesPath "transformers.TrainingArguments" (Some "output_dir")
            "path/to/save/folder/"]) ∧
  (∀ env0,
     List.filter (λ ev, negb (bool_decide (event_fs_requests ev = [])))
       (trace (run_notebook (E:=Empty_set) matplotlib_nb no_fault (initial_state env0)).2)
     = [EvShell "pip install seaborn";
        EvCall 28 (VAttr (VModule "matplotlib.pyplot") "savefig") [VStr "plot.png"] []]) ∧
  (∀ env0,
     List.filter (λ ev, negb (bool_decide (event_fs_requests ev = [])))
       (trace (run_notebook (E:=Empty_set) transformers_nb no_fault (initial_state env0)).2)
     = [EvShell " pip install clearml";
        EvShell " pip install transformers[torch] datasets";
        EvShell "pip install accelerate -U";
        EvCall 1 (VAttr (VModule "transformers") "TrainingArguments") []
          [("output_dir", VStr "path/to/save/folder/");
           ("learning_rate", VFloat "2e-5");
           ("per_device_train_batch_size", VInt 8);
           ("per_device_eval_batch_size", VInt 8);
           ("num_train_epochs", VInt 2);
           ("report_to", VList [VStr "clearml"])]]) ∧
  (∀ env0,
     let tr := trace (run_notebook (E:=Empty_set) transformers_nb no_fault
                        (initial_state env0)).2 in
     List.filter (event_uses 1) tr
     = [EvCall 8 (VAttr (VModule "transformers") "Trainer") []
          [("model", VObj 0); ("args", VObj 1); ("train_dataset", VObj 6);
           ("eval_dataset", VObj 7); ("tokenizer", VObj 2); ("data_collator", VObj 5)]] ∧
     List.filter (event_uses 8) tr = [EvCall 9 (VAttr (VObj 8) "train") [] []]).
Proof.
  do 6 (split; [vm_compute; reflexivity|]).
  split; [|split; [|do 2 (split; [intros env0; vm_compute; reflexivity|]);
                     intros env0; vm_compute; split; reflexivity]].
  - intros E O env0 ev r Hev Hr.
    pose proof (every_event (E:=E)
                  (asks_only [RunsCommand "pip install seaborn";
                              NamesPath "matplotlib.pyplot.savefig" None "plot.png"])
                  matplotlib_nb (initial_state env0) matplotlib_in_notebooks
                  ltac:(vm_compute; reflexivity) O ev Hev) as H.
    unfold asks_only in H. by apply (bool_decide_eq_true_1 _ (forallb_elem _ _ r H Hr)).
  - intros E O env0 ev r Hev Hr.
    pose proof (every_event (E:=E)
                  (asks_only [RunsCommand " pip install clearml";
                              RunsCommand " pip install transformers[torch] datasets";
                              RunsCommand "pip install accelerate -U";
                              NamesPath "transformers.TrainingArguments"
                                (Some "output_dir") "path/to/save/folder/"])
                  transformers_nb (initial_state env0) transformers_in_notebooks
                  ltac:(vm_compute; reflexivity) O ev Hev) as H.
    unfold asks_only in H. by apply (bool_decide_eq_true_1 _ (forallb_elem _ _ r H Hr)).
Qed.

(** The run of the matplotlib notebook without faults: its savefig
    event asks for [plot.png]. *)
Lemma file_system_requests_witness :
  let ev := EvCall 28 (VAttr (VModule "matplotlib.pyplot") "savefig") [VStr "plot.png"] [] in
  let r := NamesPath "matplotlib.pyplot.savefig" None "plot.png" in
  ev ∈ trace (run_notebook (E:=Empty_set) matplotlib_nb no_fault (initial_state ∅)).2 ∧
  r ∈ event_fs_requests ev ∧
  r ∈ [RunsCommand "pip install seaborn";
       NamesPath "matplotlib.pyplot.savefig" None "plot.png"].
Proof.
  cbv zeta.
  assert (Hev : EvCall 28 (VAttr (VModule "matplotlib.pyplot") "savefig") [VStr "plot.png"] []
                ∈ trace (run_notebook (E:=Empty_set) matplotlib_nb no_fault (initial_state ∅)).2)
    by (apply list_elem_of_In; vm_compute; tauto).
  assert (Hr : NamesPath "matplotlib.pyplot.savefig" None "plot.png"
               ∈ event_fs_requests
                   (EvCall 28 (VAttr (VModule "matplotlib.pyplot") "savefig")
                      [VStr "plot.png"] []))
    by (apply list_elem_of_In; vm_compute; tauto).
  split; [exact Hev|]. split; [exact Hr|].
  exact (proj1 (proj2 (proj2 (proj2 (proj2 (proj2 (proj2 file_system_requests))))))
           Empty_set no_fault ∅ _ _ Hev Hr).
Defined.

(** ** C6: the operations of the matplotlib notebook *)

(** C6, as stated, does not hold: the titled image plot takes two
    library calls, [plt.imshow] and [plt.title], and the saved scatter
    figure three. *)
Lemma single_calls_refuted :
  figure_calls mpl_image_titled = ["imshow"; "title"] ∧
  figure_calls mpl_savefig = ["title"; "scatter"; "savefig"] ∧
  ¬ claimed_single_calls.
Proof.
  do 2 (split; [vm_compute; reflexivity|]).
  intros [H _]. specialize (H 10%nat mpl_image_titled).
  assert (Hc : length (figure_calls mpl_image_titled) = 2%nat) by (vm_compute; reflexivity).
  rewrite Hc in H. assert (2 = 1)%nat; [|lia].
  apply H; apply list_elem_of_In; vm_compute; tauto.
Qed.

(** The cell commented "create another plot - with a name" gives its
    plot no title. *)
Example line_plot_untitled : cell_title mpl_line = None.
Proof. reflexivity. Qed.

(** C6, amended.  The matplotlib notebook performs, in cell order, the
    initialization of the tracking session, a scatter plot, a line
    plot, an image plot without title, an image plot titled "Image
    Title", a scatter plot titled "savefig Image" that is saved, and a
    seaborn line plot, each through exactly one initialization or plot
    call, in a cell of its own; the titled image plot takes a further
    [plt.title] call, the saved figure [plt.title] and [plt.savefig].
    Around these calls the cells are straight-line code: imports, shell
    escapes, assignments, calls that prepare the data and [plt.show]
    (6, 4, 3, 4, 7 and 4 calls in all in the plot cells), with no
    function definition and no handler.  In the run each operation is
    one call event.  The one function that the repository defines is
    [tokenize_dataset] in the transformers notebook. *)
Theorem operations_of_matplotlib :
  operations matplotlib_nb
    = [(4%nat, "Task.init"); (6%nat, "plt.scatter"); (7%nat, "plt.plot");
       (9%nat, "plt.imshow"); (10%nat, "plt.imshow"); (11%nat, "plt.scatter");
       (13%nat, "sns.lineplot")] ∧
  ((λ ic : nat * list stmt, (ic.1, figure_calls ic.2)) <$> code_cells matplotlib_nb)
    = [(1%nat, []); (2%nat, []); (4%nat, ["init"]); (6%nat, ["scatter"]);
       (7%nat, ["plot"]); (9%nat, ["imshow"]); (10%nat, ["imshow"; "title"]);
       (11%nat, ["title"; "scatter"; "savefig"]); (13%nat, ["lineplot"])] ∧
  cell_title mpl_image = None ∧
  cell_title mpl_image_titled = Some "Image Title" ∧
  cell_title mpl_savefig = Some "savefig Image" ∧
  forallb straight_line (all_stmts matplotlib_nb) = true ∧
  ((λ ic : nat * list stmt, (ic.1, length (cell_calls ic.2))) <$> code_cells matplotlib_nb)
    = [(1, 0); (2, 0); (4, 1); (6, 6); (7, 4); (9, 3); (10, 4); (11, 7); (13, 4)]%nat ∧
  (∀ env0,
     List.filter (λ a, in_list a operation_names)
       (val_last_name <$>
          omap event_callee
            (trace (run_notebook (E:=Empty_set) matplotlib_nb no_fault
                      (initial_state env0)).2))
     = ["init"; "scatter"; "plot"; "imshow"; "imshow"; "scatter"; "lineplot"]) ∧
  flat_map cell_defs (snd <$> code_cells matplotlib_nb) = [] ∧
  flat_map cell_defs (snd <$> code_cells transformers_nb) = ["tokenize_dataset"].
Proof.
  do 7 (split; [vm_compute; reflexivity|]).
  split; [intros env0; vm_compute; reflexivity|].
  split; vm_compute; reflexivity.
Qed.

(** ** C7: threads, processes, coroutines *)

(** C7, as stated, does not hold: [!pip install seaborn] runs pip in a
    child process. *)
Lemma no_process_refuted :
  SShell "pip install seaborn" ∈ mpl_install_seaborn ∧
  starts_process (SShell "pip install seaborn") = true ∧
  ¬ claimed_no_thread_or_process.
Proof.
  split; [apply list_elem_of_In; left; reflexivity|].
  split; [reflexivity|].
  intros H.
  destruct (H matplotlib_nb mpl_install_seaborn (SShell "pip install seaborn")
              matplotlib_in_notebooks) as (_ & Hp & _).
  - apply list_elem_of_In. do 2 right. left. reflexivity.
  - apply list_elem_of_In. left. reflexivity.
  - discriminate Hp.
Qed.

(** C7, amended.  No statement of either notebook starts a thread,
    defines or awaits a coroutine, or imports a module for threads,
    processes or asynchronous code; the only statements that start a
    process are the [pip install] shell escapes, one in the matplotlib
    notebook and three in the transformers notebook, and a shell escape
    returns before the next statement runs.  The kernel runs a
    statement in the state in which the previous statement ended, and
    no run contains a suspension point. *)
Theorem synchronous_execution :
  (∀ nb src s, nb ∈ notebooks → Code src ∈ nb → s ∈ src →
     starts_thread s = false ∧ uses_async s = false ∧
     (∀ m, m ∈ imported_modules s → m ∉ concurrency_modules) ∧
     (starts_process s = true → is_pip_install s = true)) ∧
  shell_commands matplotlib_nb = [(2%nat, "pip install seaborn")] ∧
  shell_commands transformers_nb
    = [(5%nat, " pip install clearml");
       (5%nat, " pip install transformers[torch] datasets");
       (5%nat, "pip install accelerate -U")] ∧
  (∀ (E : Type) (O : oracle E) cmd st,
     exec (SShell cmd) O st
     = (Ok tt, mkState (vars st) (environ st) (next_id st) (trace st ++ [EvShell cmd]))) ∧
  (∀ (E : Type) (O : oracle E) s rest st,
     seqM exec (s :: rest) O st
     = match exec s O st with
       | (Ok _, st') => seqM exec rest O st'
       | (Raise e, st') => (Raise e, st')
       | (Stuck, st') => (Stuck, st')
       end) ∧
  (∀ nb (E : Type) (O : oracle E) env0 ev,
     nb ∈ notebooks →
     ev ∈ trace (run_notebook nb O (initial_state env0)).2 →
     is_suspension ev = false).
Proof.
  split; [|do 2 (split; [vm_compute; reflexivity|]); split; [reflexivity|];
           split; [reflexivity|]].
  - intros nb src s Hnb Hc Hs.
    assert (H : sync_check s = true).
    { apply (every_stmt sync_check ltac:(vm_compute; reflexivity) nb src s Hnb Hc Hs). }
    unfold sync_check in H.
    apply andb_prop in H as [H Hproc]. apply andb_prop in H as [H Hmod].
    apply andb_prop in H as [Hthr Hasync].
    apply negb_true_iff in Hthr, Hasync.
    repeat split; [exact Hthr | exact Hasync | by apply none_in_list |].
    intros Hp. rewrite Hp in Hproc. exact Hproc.
  - intros nb E O env0 ev Hnb Hev. apply negb_true_iff.
    refine (every_event (E:=E) (λ ev, negb (is_suspension ev)) nb
              (initial_state env0) Hnb _ O ev Hev).
    revert nb Hnb Hev. apply (in_notebooks (λ nb, _ → forallb _ _ = true));
      intros _; vm_compute; reflexivity.
Qed.

(** The shell escape of the matplotlib notebook starts a process, and
    is a pip install. *)
Lemma synchronous_execution_witness :
  matplotlib_nb ∈ notebooks ∧ Code mpl_install_seaborn ∈ matplotlib_nb ∧
  SShell "pip install seaborn" ∈ mpl_install_seaborn ∧
  starts_process (SShell "pip install seaborn") = true ∧
  is_pip_install (SShell "pip install seaborn") = true.
Proof.
  assert (Hc : Code mpl_install_seaborn ∈ matplotlib_nb)
    by (apply list_elem_of_In; do 2 right; left; reflexivity).
  assert (Hs : SShell "pip install seaborn" ∈ mpl_install_seaborn)
    by (apply list_elem_of_In; left; reflexivity).
  split; [exact matplotlib_in_notebooks|]. split; [exact Hc|]. split; [exact Hs|].
  split; [reflexivity|].
  exact (proj2 (proj2 (proj2 (proj1 synchronous_execution
           matplotlib_nb mpl_install_seaborn (SShell "pip install seaborn")
           matplotlib_in_notebooks Hc Hs))) eq_refl).
Defined.

(** ** C8: the task object *)

(** C8.  The matplotlib notebook calls [Task.init] once, in cell 4,
    before every plot cell, and assigns the result to [task] once; no
    expression of the notebook mentions [task]; in the run it is the
    first call and the only call into the clearml module, it returns
    object 0, to which [task] stays bound, and under any behaviour of
    the libraries no event has object 0 as its receiver or among its
    arguments. *)
Theorem task_initialised_once_and_unused :
  ((λ ie : nat * expr, (ie.1, dotted <$> callee_of ie.2))
     <$> calls_named ["init"] true matplotlib_nb) = [(4%nat, Some "Task.init")] ∧
  assignments mpl_init
    = [("task", ECall (attr2 "Task" "init") []
                  [("project_name", EStr "Colab notebooks");
                   ("task_name", EStr "Matplotlib example")])] ∧
  assign_count matplotlib_nb "task" = 1%nat ∧
  before (fst <$> calls_named ["init"] true matplotlib_nb)
         (fst <$> run_plot_calls matplotlib_nb) ∧
  ("task" ∉ names_referenced true matplotlib_nb) ∧
  (∀ env0,
     let st := (run_notebook (E:=Empty_set) matplotlib_nb no_fault
                  (initial_state env0)).2 in
     vars st !! "task" = Some (VObj 0) ∧
     head (List.filter (λ ev, bool_decide (is_Some (event_callee ev))) (trace st))
       = Some (EvCall 0 (VAttr (VAttr (VModule "clearml") "Task") "init") []
                 [("project_name", VStr "Colab notebooks");
                  ("task_name", VStr "Matplotlib example")])) ∧
  (∀ env0,
     List.filter (in_library "clearml")
       (trace (run_notebook (E:=Empty_set) matplotlib_nb no_fault (initial_state env0)).2)
     = [EvCall 0 (VAttr (VAttr (VModule "clearml") "Task") "init") []
          [("project_name", VStr "Colab notebooks");
           ("task_name", VStr "Matplotlib example")]]) ∧
  (∀ (E : Type) (O : oracle E) env0 ev,
     ev ∈ trace (run_notebook matplotlib_nb O (initial_state env0)).2 →
     event_uses 0 ev = false).
Proof.
  do 3 (split; [vm_compute; reflexivity|]).
  split; [apply before_b_sound; vm_compute; reflexivity|].
  split; [|split; [|split; [intros env0; vm_compute; reflexivity|]]].
  - apply (none_in_list ["task"] (names_referenced true matplotlib_nb)
             ltac:(vm_compute; reflexivity)).
    apply list_elem_of_In. left. reflexivity.
  - intros env0. cbv zeta. split; vm_compute; reflexivity.
  - intros E O env0 ev Hev. apply negb_true_iff.
    exact (every_event (E:=E) (λ ev, negb (event_uses 0 ev)) matplotlib_nb
             (initial_state env0) matplotlib_in_notebooks
             ltac:(vm_compute; reflexivity) O ev Hev).
Qed.

(** The scatter event of the run without faults does not use the task
    object. *)
Lemma task_initialised_once_and_unused_witness :
  let ev := EvCall 7 (VAttr (VModule "matplotlib.pyplot") "scatter") [VObj 1; VObj 2]
              [("s", VObj 6); ("c", VObj 3); ("alpha", VFloat "0.5")] in
  ev ∈ trace (run_notebook (E:=Empty_set) matplotlib_nb no_fault (initial_state ∅)).2 ∧
  event_uses 0 ev = false.
Proof.
  cbv zeta.
  assert (Hev : EvCall 7 (VAttr (VModule "matplotlib.pyplot") "scatter") [VObj 1; VObj 2]
              [("s", VObj 6); ("c", VObj 3); ("alpha", VFloat "0.5")]
            ∈ trace (run_notebook (E:=Empty_set) matplotlib_nb no_fault (initial_state ∅)).2)
    by (apply list_elem_of_In; vm_compute; tauto).
  split; [exact Hev|].
  exact (proj2 (proj2 (proj2 (proj2 (proj2 (proj2 (proj2
           task_initialised_once_and_unused))))))
           Empty_set no_fault ∅ _ Hev).
Defined.

(** * Further properties of the notebooks *)

(** ** The callback [tokenize_dataset] *)

Example tokenize_dataset_source :
  tokenize_dataset_fn
  = (["dataset"],
     [SReturn (call (EName "tokenizer") [ESubscript (EName "dataset") (EStr "text")])]).
Proof. reflexivity. Qed.

Lemma state_eta (st : state) :
  mkState (vars st) (environ st) (next_id st) (trace st) = st.
Proof. by destruct st. Qed.

(** ** Names: what a block needs from the namespace *)

Section ScopingProofs.
Context {E : Type}.

Lemma quiet_mono X Y A (m : M E A) :
  quiet E X A m → (∀ x, x ∈ X → x ∈ Y) → quiet E Y A m.
Proof. intros H HXY O st Hb. apply H. intros x Hx. by apply Hb, HXY. Qed.

Lemma quiet_bind X A B (m : M E A) (f : A → M E B) :
  quiet E X A m → (∀ a, quiet E X B (f a)) → quiet E X B (bind m f).
Proof.
  intros Hm Hf O st Hb. unfold bind. destruct (Hm O st Hb) as [Hv Hn].
  destruct (m O st) as [[a|e|] st1]; simpl in *.
  - destruct (Hf a O st1) as [Hv' Hn'].
    { intros x Hx. unfold bound. rewrite Hv. by apply Hb. }
    split; [by rewrite Hv'|exact Hn'].
  - split; [exact Hv|]. intros y [= ->]. by apply (Hn y).
  - split; [exact Hv|]. done.
Qed.

Lemma quiet_pure X A (m : M E A) :
  (∀ O st, vars (m O st).2 = vars st ∧ ∀ y, (m O st).1 ≠ Raise (NameError y)) →
  quiet E X A m.
Proof. intros H O st _. apply H. Qed.

Lemma quiet_lookup x : quiet E [x] _ (lookup_var x).
Proof.
  intros O st Hb. unfold lookup_var.
  destruct (Hb x) as [v Hv]; [by apply list_elem_of_In; left|].
  rewrite Hv. by split.
Qed.

Lemma quiet_external X mk : quiet E X _ (external mk).
Proof.
  apply quiet_pure. intros O st. unfold external, bind, fresh_id, interact, ret. simpl.
  destruct (O _ _); by split.
Qed.

Lemma quiet_mapM {A B} (names : A → list string) (f : A → M E B) (l : list A) :
  Forall (λ a, quiet E (names a) B (f a)) l →
  quiet E (flat_map names l) _ (mapM f l).
Proof.
  induction 1 as [|a l Ha _ IH]; simpl.
  - by apply quiet_pure.
  - apply quiet_bind.
    + eapply quiet_mono; [exact Ha|]. intros x Hx. apply elem_of_app. by left.
    + intros b. apply quiet_bind.
      * eapply quiet_mono; [exact IH|]. intros x Hx. apply elem_of_app. by right.
      * intros bs. by apply quiet_pure.
Qed.

Lemma eval_quiet (e : expr) : quiet E (expr_names e) _ (eval e).
Proof.
  induction e as [x|s|n|lit|b|items IH|e a IH|e idx IHe IHi|op l r IHl IHr
                 |f args kwargs IHf IHa IHk|e IH] using expr_nested_ind; simpl.
  - apply quiet_lookup.
  - by apply quiet_pure.
  - by apply quiet_pure.
  - by apply quiet_pure.
  - by apply quiet_pure.
  - apply quiet_bind; [by apply quiet_mapM|]. intros vs. by apply quiet_pure.
  - apply quiet_bind; [exact IH|]. intros v. by apply quiet_pure.
  - apply quiet_bind.
    { eapply quiet_mono; [exact IHe|]. intros x Hx. apply elem_of_app. by left. }
    intros v. apply quiet_bind.
    { eapply quiet_mono; [exact IHi|]. intros x Hx. apply elem_of_app. by right. }
    intros i. unfold apply_subscript. destruct (is_external v);
      [apply quiet_external | by apply quiet_pure].
  - apply quiet_bind.
    { eapply quiet_mono; [exact IHl|]. intros x Hx. apply elem_of_app. by left. }
    intros a. apply quiet_bind.
    { eapply quiet_mono; [exact IHr|]. intros x Hx. apply elem_of_app. by right. }
    intros b. unfold apply_binop.
    destruct (is_external a || is_external b); [apply quiet_external|].
    destruct op, a, b; try (by apply quiet_pure).
    destruct (0 <=? _); by apply quiet_pure.
  - apply quiet_bind.
    { eapply quiet_mono; [exact IHf|]. intros x Hx. apply elem_of_app. by left. }
    intros vf. apply quiet_bind.
    { eapply quiet_mono; [by apply (quiet_mapM expr_names)|].
      intros x Hx. apply elem_of_app. right. apply elem_of_app. by left. }
    intros vargs. apply quiet_bind.
    { eapply quiet_mono.
      - apply (quiet_mapM (λ kw : string * expr, expr_names kw.2)).
        eapply Forall_impl; [exact IHk|]. intros [k a] Ha. simpl in *.
        apply quiet_bind; [exact Ha|]. intros v. by apply quiet_pure.
      - intros x Hx. apply elem_of_app. right. apply elem_of_app. by right. }
    intros vkw. destruct vf; simpl; try (by apply quiet_pure); apply quiet_external.
  - apply quiet_bind; [exact IH|]. intros v. apply quiet_external.
Qed.


Lemma forallb_Forall {A} (f : A → bool) (l : list A) :
  Forall (λ a, f a = true) l → forallb f l = true.
Proof. induction 1 as [|a l Ha _ IH]; simpl; [done|]. by rewrite Ha, IH. Qed.

Lemma admissible_all (s : stmt) : admissible true true s = true.
Proof.
  induction s as [t|c|p|m a|m ns|x e|e|a n ps body _|e|body handler IHb IHh]
    using stmt_nested_ind; simpl; try reflexivity.
  by rewrite !forallb_Forall.
Qed.

Lemma keeps_bound_bind A B (m : M E A) (f : A → M E B) :
  keeps_bound E A m → (∀ a, keeps_bound E B (f a)) → keeps_bound E B (bind m f).
Proof.
  intros Hm Hf O st x Hx. unfold bind. specialize (Hm O st x Hx).
  destruct (m O st) as [[a|e|] st1]; simpl in *; [|done..]. by apply Hf.
Qed.

Lemma keeps_bound_catch A (m h : M E A) :
  keeps_bound E A m → keeps_bound E A h → keeps_bound E A (catch m h).
Proof.
  intros Hm Hh O st x Hx. unfold catch. specialize (Hm O st x Hx).
  destruct (m O st) as [[a|e|] st1]; simpl in *; [done| |done]. by apply Hh.
Qed.

Lemma keeps_bound_bind_var x v : keeps_bound E _ (bind_var x v).
Proof.
  intros O st y Hy. unfold bound in *. simpl.
  destruct (decide (x = y)) as [->|Hne];
    [by rewrite lookup_insert_eq | by rewrite lookup_insert_ne].
Qed.

Lemma seqM_keeps_bound (block : list stmt) : keeps_bound E _ (seqM exec block).
Proof.
  apply (block_P (keeps_bound E) true true);
    try (intros; intros O st x Hx; exact Hx).
  - apply keeps_bound_bind.
  - intros x O st y Hy. unfold lookup_var. by destruct (vars st !! x).
  - apply keeps_bound_bind_var.
  - intros ev _ O st x Hx. unfold interact. by destruct (O (trace st) ev).
  - intros _. apply keeps_bound_catch.
  - apply forallb_Forall, Forall_forall. intros s _. apply admissible_all.
Qed.

Lemma exec_keeps_bound (s : stmt) : keeps_bound E _ (exec s).
Proof.
  intros O st x Hx. pose proof (seqM_keeps_bound [s] O st x Hx) as H.
  simpl in H. unfold bind in H. by destruct (exec s O st) as [[[]|e|] st1].
Qed.

Lemma import_names_binds module names (O : oracle E) st r st' :
  import_names module names O st = (r, st') →
  r = Ok tt ∧
  (∀ x, x ∈ names → bound st' x) ∧
  (∀ x, x ∉ names → vars st' !! x = vars st !! x).
Proof.
  unfold import_names. revert st.
  induction names as [|n names IH]; simpl; intros st Hrun.
  - injection Hrun as <- <-. split; [done|]. split; [|done].
    intros x Hx. by apply elem_of_nil in Hx.
  - unfold bind in Hrun. simpl in Hrun.
    destruct (IH _ Hrun) as (Hr & Hb & Hf). split; [exact Hr|]. split.
    + intros x Hx. apply elem_of_cons in Hx as [->|Hx]; [|by apply Hb].
      destruct (decide (n ∈ names)) as [Hin|Hnin]; [by apply Hb|].
      unfold bound. rewrite (Hf n Hnin). simpl. by rewrite lookup_insert_eq.
    + intros x Hx. apply not_elem_of_cons in Hx as [Hne Hx].
      rewrite (Hf x Hx). simpl. by rewrite lookup_insert_ne.
Qed.

Lemma env_magic_vars param (O : oracle E) st :
  vars (env_magic param O st).2 = vars st ∧
  ∀ y, (env_magic param O st).1 ≠ Raise (NameError y).
Proof.
  unfold env_magic. destruct (parse_env param) as [|key|var value|msg|]; simpl;
    try (by split).
  unfold bind, get_environ. simpl. destruct (environ st !! key); by split.
Qed.

Lemma eval_keeps_vars (e : expr) (O : oracle E) st :
  vars (eval e O st).2 = vars st.
Proof.
  revert O st. apply (eval_P (λ A m, ∀ O st, vars (m O st).2 = vars st));
    try (intros; done).
  - intros A B m f Hm Hf O st. unfold bind. specialize (Hm O st).
    destruct (m O st) as [[b|e0|] st2]; simpl in *; [|done..]. by rewrite Hf.
  - intros x O st. unfold lookup_var. by destruct (vars st !! x).
  - intros ev _ O st. unfold interact. by destruct (O (trace st) ev).
Qed.

(** What a statement has done to the namespace when it completes. *)
Lemma exec_binds (s : stmt) (O : oracle E) st st' :
  (∀ body handler, s ≠ STry body handler) →
  exec s O st = (Ok tt, st') →
  (∀ x, x ∈ stmt_binds s → bound st' x) ∧
  (∀ x, x ∉ stmt_binds s → vars st' !! x = vars st !! x).
Proof.
  destruct s as [t|c|p|m a|m ns|x e|e|a n ps body|e|body handler]; simpl;
    intros Hh Hrun; try (by destruct (Hh body handler)).
  - injection Hrun as <-. split; [|done]. intros x Hx. by apply elem_of_nil in Hx.
  - injection Hrun as <-. split; [|done]. intros x Hx. by apply elem_of_nil in Hx.
  - pose proof (env_magic_vars p O st) as [Hv _]. rewrite Hrun in Hv. simpl in Hv.
    rewrite Hv. split; [|done]. intros x Hx. by apply elem_of_nil in Hx.
  - unfold bind, interact in Hrun. destruct (O (trace st) (EvImport m)); [discriminate|].
    simpl in Hrun. injection Hrun as <-. simpl. split.
    + intros x Hx. apply list_elem_of_singleton in Hx as ->.
      unfold bound. simpl. by rewrite lookup_insert_eq.
    + intros x Hx. apply not_elem_of_cons in Hx as [Hne _].
      by rewrite lookup_insert_ne.
  - unfold bind, interact in Hrun. destruct (O (trace st) (EvImport m)); [discriminate|].
    simpl in Hrun. apply import_names_binds in Hrun as (_ & Hb & Hf). by split.
  - unfold bind in Hrun.
    destruct (eval e O st) as [[v|ex|] st1] eqn:He; try discriminate.
    simpl in Hrun. injection Hrun as <-. simpl.
    pose proof (eval_keeps_vars e O st) as Hv. rewrite He in Hv. simpl in Hv.
    split.
    + intros y Hy. apply list_elem_of_singleton in Hy as ->.
      unfold bound. simpl. by rewrite lookup_insert_eq.
    + intros y Hy. apply not_elem_of_cons in Hy as [Hne _]. simpl.
      rewrite lookup_insert_ne by done. by rewrite Hv.
  - unfold bind in Hrun.
    destruct (eval e O st) as [[v|ex|] st1] eqn:He; try discriminate.
    simpl in Hrun. injection Hrun as <-.
    split; [intros x Hx; by apply elem_of_nil in Hx|]. intros x _.
    pose proof (eval_keeps_vars e O st) as Hv. rewrite He in Hv. simpl in Hv.
    by rewrite Hv.
  - injection Hrun as <-. simpl. split.
    + intros x Hx. apply list_elem_of_singleton in Hx as ->.
      unfold bound. simpl. by rewrite lookup_insert_eq.
    + intros x Hx. apply not_elem_of_cons in Hx as [Hne _].
      by rewrite lookup_insert_ne.
  - discriminate Hrun.
Qed.


Lemma exec_binds_bound (s : stmt) (O : oracle E) st st' :
  exec s O st = (Ok tt, st') → ∀ x, x ∈ stmt_binds s → bound st' x.
Proof.
  intros Hrun x Hx.
  destruct s;
    try (refine (proj1 (exec_binds _ O st st' _ Hrun) x Hx); intros; discriminate).
  by apply elem_of_nil in Hx.
Qed.

Lemma elem_of_free_of_cons reads (s : stmt) rest x :
  x ∈ free_of reads (s :: rest) ↔
  x ∈ reads s ∨ (x ∈ free_of reads rest ∧ x ∉ stmt_binds s).
Proof.
  simpl. rewrite elem_of_app, !list_elem_of_In, filter_In, <- !list_elem_of_In.
  unfold in_list. rewrite negb_true_iff, bool_decide_eq_false. tauto.
Qed.

(** A block of statements, each of which raises no [NameError] where
    its reads are bound, raises none where its free names are bound. *)
Lemma block_quiet (block : list stmt) :
  Forall (λ s, ∀ (O : oracle E) st, (∀ x, x ∈ stmt_reads s → bound st x) →
               ∀ y, (exec s O st).1 ≠ Raise (NameError y)) block →
  ∀ (O : oracle E) st, (∀ x, x ∈ free_of stmt_reads block → bound st x) →
    ∀ y, (seqM exec block O st).1 ≠ Raise (NameError y).
Proof.
  induction 1 as [|s rest Hs _ IH]; intros O st Hb y; simpl; [done|].
  unfold bind. pose proof (Hs O st) as Hs'.
  pose proof (exec_keeps_bound s O st) as Hk.
  pose proof (exec_binds_bound s O st) as Hbb.
  destruct (exec s O st) as [[[]|e|] st1]; simpl in *.
  - apply IH. intros x Hx.
    destruct (decide (x ∈ stmt_binds s)) as [Hin|Hnin]; [by apply (Hbb st1)|].
    apply Hk, Hb, elem_of_free_of_cons. by right.
  - intros [= ->]. eapply Hs'; [|reflexivity].
    intros x Hx. apply Hb, elem_of_free_of_cons. by left.
  - done.
Qed.

Lemma exec_quiet (s : stmt) (O : oracle E) st :
  (∀ x, x ∈ stmt_reads s → bound st x) →
  ∀ y, (exec s O st).1 ≠ Raise (NameError y).
Proof.
  revert O st.
  induction s as [t|c|p|m a|m ns|x e|e|a n ps body _|e|body handler IHb IHh]
    using stmt_nested_ind; simpl; intros O st Hb y; try done.
  - apply env_magic_vars.
  - unfold bind, interact. by destruct (O (trace st) (EvImport m)).
  - unfold bind, interact. destruct (O (trace st) (EvImport m)); [done|]. simpl.
    destruct (import_names m ns O _) as [r st'] eqn:Hi.
    apply import_names_binds in Hi as [-> _]. done.
  - unfold bind. destruct (eval_quiet e O st Hb) as [_ Hn].
    destruct (eval e O st) as [[v|ex|] st1]; simpl in *; [done| |done].
    intros [= ->]. by apply (Hn y).
  - unfold bind. destruct (eval_quiet e O st Hb) as [_ Hn].
    destruct (eval e O st) as [[v|ex|] st1]; simpl in *; [done| |done].
    intros [= ->]. by apply (Hn y).
  - unfold catch.
    pose proof (block_quiet body IHb O st) as Hbody.
    pose proof (seqM_keeps_bound body O st) as Hk.
    destruct (seqM exec body O st) as [[[]|ex|] st1]; simpl in *.
    + apply Hbody. intros x Hx. apply Hb, elem_of_app. by left.
    + apply (block_quiet handler IHh). intros x Hx.
      apply Hk, Hb, elem_of_app. by right.
    + done.
Qed.

(** Scoping is sound: a block whose free names are bound raises no
    [NameError], whatever the libraries do. *)
Theorem free_names_sound (block : list stmt) (O : oracle E) st :
  (∀ x, x ∈ free_names block → bound st x) →
  ∀ y, (seqM exec block O st).1 ≠ Raise (NameError y).
Proof.
  apply block_quiet, Forall_forall. intros s _ O' st'. apply exec_quiet.
Qed.

(** Expressions complete only where their names are bound. *)
Lemma strict_mono X Y A (m : M E A) :
  strict E X A m → (∀ x, x ∈ Y → x ∈ X) → strict E Y A m.
Proof.
  intros H HYX O st a st' Hrun. destruct (H O st a st' Hrun) as [Hv Hb].
  split; [exact Hv|]. intros x Hx. by apply Hb, HYX.
Qed.

Lemma strict_bind X Y A B (m : M E A) (f : A → M E B) :
  strict E X A m → (∀ a, strict E Y B (f a)) → strict E (X ++ Y) B (bind m f).
Proof.
  intros Hm Hf O st b st' Hrun. unfold bind in Hrun.
  destruct (m O st) as [[a|e|] st1] eqn:Hmr; try discriminate.
  destruct (Hm O st a st1 Hmr) as [Hv1 Hb1].
  destruct (Hf a O st1 b st' Hrun) as [Hv2 Hb2].
  split; [by rewrite Hv2|]. intros x Hx. apply elem_of_app in Hx as [Hx|Hx].
  - by apply Hb1.
  - specialize (Hb2 x Hx). unfold bound in *. by rewrite <- Hv1.
Qed.

Lemma strict_pure A (m : M E A) :
  (∀ O st, vars (m O st).2 = vars st) → strict E [] A m.
Proof.
  intros H O st a st' Hrun. specialize (H O st). rewrite Hrun in H.
  split; [exact H|]. intros x Hx. by apply elem_of_nil in Hx.
Qed.

Lemma strict_external mk : strict E [] _ (external mk).
Proof.
  apply strict_pure. intros O st. unfold external, bind, fresh_id, interact, ret.
  simpl. by destruct (O _ _).
Qed.

Lemma strict_mapM {A B} (names : A → list string) (f : A → M E B) (l : list A) :
  Forall (λ a, strict E (names a) B (f a)) l →
  strict E (flat_map names l) _ (mapM f l).
Proof.
  induction 1 as [|a l Ha _ IH]; simpl.
  - by apply strict_pure.
  - eapply strict_mono.
    + apply strict_bind; [exact Ha|]. intros b.
      apply strict_bind; [exact IH|]. intros bs. by apply strict_pure.
    + intros x Hx. rewrite app_nil_r. exact Hx.
Qed.

Lemma eval_strict (e : expr) : strict E (expr_names e) _ (eval e).
Proof.
  induction e as [x|s|n|lit|b|items IH|e a IH|e idx IHe IHi|op l r IHl IHr
                 |f args kwargs IHf IHa IHk|e IH] using expr_nested_ind; simpl.
  - intros O st v st' Hrun. unfold lookup_var in Hrun.
    destruct (vars st !! x) as [w|] eqn:Hx; [|discriminate].
    injection Hrun as <- <-. split; [done|].
    intros y Hy. apply list_elem_of_singleton in Hy as ->. by exists w.
  - by apply strict_pure.
  - by apply strict_pure.
  - by apply strict_pure.
  - by apply strict_pure.
  - eapply strict_mono.
    + apply strict_bind; [by apply (strict_mapM expr_names)|].
      intros vs. by apply strict_pure.
    + intros x Hx. by rewrite app_nil_r.
  - eapply strict_mono.
    + apply strict_bind; [exact IH|]. intros v. by apply strict_pure.
    + intros x Hx. by rewrite app_nil_r.
  - eapply strict_mono.
    + apply strict_bind; [exact IHe|]. intros v.
      apply strict_bind; [exact IHi|]. intros i.
      unfold apply_subscript. destruct (is_external v);
        [apply strict_external | by apply strict_pure].
    + intros x Hx. by rewrite app_nil_r.
  - eapply strict_mono.
    + apply strict_bind; [exact IHl|]. intros a.
      apply strict_bind; [exact IHr|]. intros b.
      instantiate (1 := []). unfold apply_binop.
      destruct (is_external a || is_external b); [apply strict_external|].
      destruct op, a, b; try (by apply strict_pure).
      destruct (0 <=? _); by apply strict_pure.
    + intros x Hx. by rewrite app_nil_r.
  - eapply strict_mono.
    + apply strict_bind; [exact IHf|]. intros vf.
      apply strict_bind; [by apply (strict_mapM expr_names)|]. intros vargs.
      apply strict_bind.
      * apply (strict_mapM (λ kw : string * expr, expr_names kw.2)).
        eapply Forall_impl; [exact IHk|]. intros [k a] Ha. simpl in *.
        eapply strict_mono.
        -- apply strict_bind; [exact Ha|]. intros v. by apply strict_pure.
        -- intros x Hx. by rewrite app_nil_r.
      * intros vkw. instantiate (1 := []).
        destruct vf; simpl; try (by apply strict_pure); apply strict_external.
    + intros x Hx. by rewrite app_nil_r.
  - eapply strict_mono.
    + apply strict_bind; [exact IH|]. intros v. apply strict_external.
    + intros x Hx. by rewrite app_nil_r.
Qed.

Lemma exec_reads (s : stmt) (O : oracle E) st st' :
  (∀ body handler, s ≠ STry body handler) →
  exec s O st = (Ok tt, st') → ∀ x, x ∈ stmt_reads s → bound st x.
Proof.
  destruct s as [t|c|p|m a|m ns|x e|e|a n ps body|e|body handler]; simpl;
    intros Hh Hrun y Hy; try (by apply elem_of_nil in Hy);
    try (by destruct (Hh body handler)).
  - unfold bind in Hrun. destruct (eval e O st) as [[v|ex|] st1] eqn:He; try discriminate.
    by apply (eval_strict e O st v st1 He).
  - unfold bind in Hrun. destruct (eval e O st) as [[v|ex|] st1] eqn:He; try discriminate.
    by apply (eval_strict e O st v st1 He).
  - discriminate Hrun.
Qed.

(** Scoping is complete for code without handlers: a block completes
    only where its free names are bound. *)
Theorem free_names_complete (block : list stmt) (O : oracle E) st st' :
  forallb (λ s, negb (has_handler s)) block = true →
  seqM exec block O st = (Ok tt, st') →
  ∀ x, x ∈ free_names block → bound st x.
Proof.
  revert st. induction block as [|s rest IH]; intros st Hh Hrun x Hx.
  - by apply elem_of_nil in Hx.
  - simpl in Hh. apply andb_prop in Hh as [Hs Hrest].
    apply negb_true_iff in Hs.
    assert (Hnt : ∀ body handler, s ≠ STry body handler).
    { intros body handler ->. discriminate Hs. }
    simpl in Hrun. unfold bind in Hrun.
    destruct (exec s O st) as [[[]|e|] st1] eqn:He; try discriminate.
    apply elem_of_free_of_cons in Hx as [Hx|[Hx Hnb]].
    + by apply (exec_reads s O st st1).
    + specialize (IH st1 Hrest Hrun x Hx). unfold bound in *.
      by rewrite <- (proj2 (exec_binds s O st st1 Hnt He) x Hnb).
Qed.

End ScopingProofs.

(** A notebook runs as the sequence of the statements of its cells. *)
Lemma seqM_app {E A} (f : A → M E unit) (a b : list A) (O : oracle E) st :
  seqM f (a ++ b) O st = bind (seqM f a) (λ _, seqM f b) O st.
Proof.
  revert st. induction a as [|x a IH]; intros st; simpl; [reflexivity|].
  unfold bind in *. destruct (f x O st) as [[[]|e|] st1]; [apply IH|done..].
Qed.

Lemma run_notebook_flat {E} (nb : notebook) (O : oracle E) st :
  run_notebook nb O st = seqM exec (notebook_source nb) O st.
Proof.
  unfold run_notebook, notebook_source. revert st.
  induction nb as [|c nb IH]; intros st; simpl; [reflexivity|].
  rewrite seqM_app. unfold bind.
  destruct c as [h|src]; simpl; [apply IH|].
  destruct (seqM exec src O st) as [[[]|e|] st1]; [apply IH|done..].
Qed.

Lemma all_in_list (names l : list string) :
  forallb (λ x, in_list x names) l = true → ∀ x, x ∈ l → x ∈ names.
Proof.
  intros H x Hx. rewrite forallb_forall in H. apply list_elem_of_In in Hx.
  specialize (H x Hx). unfold in_list in H. by apply bool_decide_eq_true in H.
Qed.

(** A call of [tokenize_dataset] is its body with the argument in
    place of the parameter, in the global namespace. *)
Lemma invoke_tokenize_dataset {E} (O : oracle E) (st : state) (batch : val) :
  invoke tokenize_dataset_fn [batch] O st = tokenize_inline batch O st.
Proof.
  rewrite tokenize_dataset_source. unfold invoke, tokenize_inline.
  cbn [fst snd length]. rewrite bool_decide_eq_true_2 by reflexivity.
  cbn [untilM body_stmt eval call mapM].
  unfold bind, ret, lookup_var.
  cbn [vars with_vars frame zip zip_with foldr flat_map assigned_names app fst snd].
  unfold with_vars. cbn [vars environ next_id trace].
  rewrite lookup_insert_ne by done.
  destruct (vars st !! "tokenizer") as [tok|]; cbv beta iota; cbn [vars];
    [|by destruct st].
  rewrite lookup_insert_eq. cbv beta iota.
  unfold apply_subscript. destruct (is_external batch); [|by destruct st].
  unfold external, bind, fresh_id, interact, ret. cbn [vars environ next_id trace].
  destruct (O (trace st) _); cbv beta iota; [reflexivity|].
  unfold apply_call.
  destruct tok; try reflexivity;
    unfold external, bind, fresh_id, interact, ret;
    cbn [vars environ next_id trace]; destruct (O _ _); reflexivity.
Qed.

(** What a block has bound when it completes. *)
Lemma run_binds {E} (block : list stmt) (O : oracle E) st st' :
  seqM exec block O st = (Ok tt, st') →
  ∀ x, x ∈ flat_map stmt_binds block → bound st' x.
Proof.
  revert st. induction block as [|s rest IH]; intros st Hrun x Hx.
  - by apply elem_of_nil in Hx.
  - simpl in Hrun, Hx. unfold bind in Hrun.
    destruct (exec s O st) as [[[]|e|] st1] eqn:He; try discriminate.
    apply elem_of_app in Hx as [Hx|Hx]; [|by apply (IH st1)].
    pose proof (seqM_keeps_bound rest O st1 x (exec_binds_bound s O st st1 He x Hx)) as Hb.
    by rewrite Hrun in Hb.
Qed.

Lemma binds_of_prefix (block : list stmt) (k n : nat) (s : stmt) (x : string) :
  block !! k = Some s → (k < n)%nat → x ∈ stmt_binds s →
  x ∈ flat_map stmt_binds (take n block).
Proof.
  intros Hk Hn Hx. apply list_elem_of_In, in_flat_map. exists s.
  split; [|by apply list_elem_of_In].
  apply list_elem_of_In, list_elem_of_lookup. exists k.
  by rewrite lookup_take_lt.
Qed.

(** With [tokenizer] bound, a call of [tokenize_dataset] raises no
    [NameError], whatever the batch and the libraries. *)
Lemma tokenize_dataset_quiet {E} (O : oracle E) (st : state) (batch : val) (y : string) :
  bound st "tokenizer" →
  (invoke tokenize_dataset_fn [batch] O st).1 ≠ Raise (NameError y).
Proof.
  intros [tok Htok]. rewrite invoke_tokenize_dataset.
  unfold tokenize_inline, bind, lookup_var. rewrite Htok.
  unfold apply_subscript. destruct (is_external batch); [|done].
  unfold external, bind, fresh_id, interact, ret. cbn [vars environ next_id trace].
  destruct (O (trace st) _); [done|]. cbv beta iota.
  unfold apply_call.
  destruct tok; try done;
    unfold external, bind, fresh_id, interact, ret;
    cbn [vars environ next_id trace]; by destruct (O _ _).
Qed.

(** X1.  Neither notebook reads a name that an earlier statement of
    the notebook has not bound; so a run of a whole notebook raises no
    [NameError], in whatever state the kernel starts and whatever the
    libraries do.  The one function, [tokenize_dataset], reads from
    the global namespace the name [tokenizer] only; it is defined by
    statement 25 of the transformers notebook, after the assignment of
    [tokenizer] (statement 22) and before the call of [dataset.map]
    that hands it over (statement 26); so from its definition on,
    however far the run has come, a call of it by a library raises no
    [NameError] either. *)
Theorem notebooks_are_closed :
  free_names (notebook_source matplotlib_nb) = [] ∧
  free_names (notebook_source transformers_nb) = [] ∧
  (∀ (E : Type) (O : oracle E) st y,
     (run_notebook matplotlib_nb O st).1 ≠ Raise (NameError y)) ∧
  (∀ (E : Type) (O : oracle E) st y,
     (run_notebook transformers_nb O st).1 ≠ Raise (NameError y)) ∧
  function_reads tokenize_dataset_fn = ["tokenizer"] ∧
  stmt_binds <$> notebook_source transformers_nb !! 22%nat = Some ["tokenizer"] ∧
  notebook_source transformers_nb !! 25%nat = head hf_tokenize ∧
  notebook_source transformers_nb !! 26%nat = last hf_tokenize ∧
  (∀ (E : Type) (O O' : oracle E) st st' (n : nat) batch y,
     (25 < n)%nat →
     seqM exec (take n (notebook_source transformers_nb)) O st = (Ok tt, st') →
     (invoke tokenize_dataset_fn [batch] O' st').1 ≠ Raise (NameError y)).
Proof.
  assert (Hm : free_names (notebook_source matplotlib_nb) = []) by (vm_compute; reflexivity).
  assert (Ht : free_names (notebook_source transformers_nb) = []) by (vm_compute; reflexivity).
  split; [exact Hm|]. split; [exact Ht|].
  split; [|split]; [| |do 4 (split; [vm_compute; reflexivity|])].
  - intros E O st y. rewrite run_notebook_flat. apply free_names_sound.
    intros x Hx. rewrite Hm in Hx. by apply elem_of_nil in Hx.
  - intros E O st y. rewrite run_notebook_flat. apply free_names_sound.
    intros x Hx. rewrite Ht in Hx. by apply elem_of_nil in Hx.
  - intros E O O' st st' n batch y Hn Hrun.
    apply tokenize_dataset_quiet. apply (run_binds _ O st st' Hrun).
    apply (binds_of_prefix _ 22 n (SAssign "tokenizer"
             (call (attr2 "AutoTokenizer" "from_pretrained")
                   [EStr "distilbert-base-uncased"])));
      [reflexivity | lia | by apply list_elem_of_In; left].
Qed.

(** The run without faults up to the definition of [tokenize_dataset],
    and a call of it on the dataset loaded. *)
Lemma notebooks_are_closed_witness :
  let st' := (seqM (E:=Empty_set) exec (take 26 (notebook_source transformers_nb))
                no_fault (initial_state ∅)).2 in
  (25 < 26)%nat ∧
  seqM (E:=Empty_set) exec (take 26 (notebook_source transformers_nb))
    no_fault (initial_state ∅) = (Ok tt, st') ∧
  (invoke (E:=Empty_set) tokenize_dataset_fn [VObj 3] no_fault st').1
    ≠ Raise (NameError "tokenizer").
Proof.
  cbv zeta.
  assert (Hrun : seqM (E:=Empty_set) exec (take 26 (notebook_source transformers_nb))
                   no_fault (initial_state ∅)
                 = (Ok tt, (seqM (E:=Empty_set) exec
                              (take 26 (notebook_source transformers_nb))
                              no_fault (initial_state ∅)).2))
    by (vm_compute; reflexivity).
  split; [lia|]. split; [exact Hrun|].
  exact (proj2 (proj2 (proj2 (proj2 (proj2 (proj2 (proj2 (proj2 notebooks_are_closed)))))))
           Empty_set no_fault no_fault (initial_state ∅) _ 26%nat (VObj 3) "tokenizer"
           ltac:(lia) Hrun).
Defined.

(** Were the tokenizer loaded after the function is handed over, the
    call would fail: the dataset cell and the definition alone leave
    [tokenizer] unbound. *)
Example late_tokenizer_is_detected :
  let st := (run_notebook (E:=Empty_set) [Code hf_dataset; Code (take 1 hf_tokenize)]
               no_fault (initial_state ∅)).2 in
  (invoke (E:=Empty_set) tokenize_dataset_fn [VObj 0] no_fault st).1
  = Raise (NameError "tokenizer").
Proof. vm_compute. reflexivity. Qed.

(** X2.  Each plot cell of the matplotlib notebook reads, beyond the
    names it assigns itself, only [plt], [np] and [sns]; with these
    three bound it raises no [NameError], in whatever order the plot
    cells are run and whatever the libraries do. *)
Theorem plot_cells_need_only_the_imports (src : list stmt) (E : Type)
    (O : oracle E) (st : state) (y : string) :
  src ∈ mpl_plot_cells →
  bound st "plt" → bound st "np" → bound st "sns" →
  (run_cell (Code src) O st).1 ≠ Raise (NameError y).
Proof.
  intros Hsrc Hplt Hnp Hsns. simpl. apply free_names_sound. intros x Hx.
  assert (H : forallb (λ src, forallb (λ x, in_list x ["plt"; "np"; "sns"]) (free_names src))
                mpl_plot_cells = true) by (vm_compute; reflexivity).
  pose proof (forallb_elem _ _ _ H Hsrc) as Hall.
  pose proof (all_in_list _ _ Hall x Hx) as Hin.
  apply list_elem_of_In in Hin. destruct Hin as [<-|[<-|[<-|[]]]]; assumption.
Qed.

(** The savefig cell run directly after the cell that imports the
    libraries, without the scatter cell whose names it reuses. *)
Lemma plot_cells_need_only_the_imports_witness :
  let st := (run_cell (E:=Empty_set) (Code mpl_init) no_fault (initial_state ∅)).2 in
  mpl_savefig ∈ mpl_plot_cells ∧
  bound st "plt" ∧ bound st "np" ∧ bound st "sns" ∧
  (run_cell (E:=Empty_set) (Code mpl_savefig) no_fault st).1 ≠ Raise (NameError "x").
Proof.
  cbv zeta.
  assert (Hsrc : mpl_savefig ∈ mpl_plot_cells)
    by (apply list_elem_of_In; do 4 right; left; reflexivity).
  assert (Hplt : bound (run_cell (E:=Empty_set) (Code mpl_init) no_fault (initial_state ∅)).2 "plt")
    by (eexists; vm_compute; reflexivity).
  assert (Hnp : bound (run_cell (E:=Empty_set) (Code mpl_init) no_fault (initial_state ∅)).2 "np")
    by (eexists; vm_compute; reflexivity).
  assert (Hsns : bound (run_cell (E:=Empty_set) (Code mpl_init) no_fault (initial_state ∅)).2 "sns")
    by (eexists; vm_compute; reflexivity).
  split; [exact Hsrc|]. split; [exact Hplt|]. split; [exact Hnp|]. split; [exact Hsns|].
  exact (plot_cells_need_only_the_imports mpl_savefig Empty_set no_fault _ "x"
           Hsrc Hplt Hnp Hsns).
Defined.

(** X3.  A code cell of either notebook completes only in a state that
    binds the names it reads from earlier cells: [dataset] for the
    tokenizing cell, [tokenizer] for the collator cell, [model],
    [training_args], [dataset], [tokenizer] and [data_collator] for
    the trainer cell, [trainer] for the training cell. *)
Theorem cells_complete_only_with_their_names :
  ((λ ic : nat * list stmt, (ic.1, free_names ic.2)) <$> code_cells transformers_nb)
    = [(2%nat, []); (3%nat, []); (5%nat, []); (8%nat, []); (10%nat, []);
       (12%nat, []); (14%nat, []); (16%nat, ["dataset"]); (18%nat, ["tokenizer"]);
       (20%nat, ["model"; "training_args"; "dataset"; "dataset"; "tokenizer";
                 "data_collator"]);
       (22%nat, ["trainer"])] ∧
  (∀ nb c (E : Type) (O : oracle E) st st' x,
     nb ∈ notebooks → c ∈ nb →
     run_cell c O st = (Ok tt, st') →
     x ∈ free_names (cell_source c) → bound st x).
Proof.
  split; [vm_compute; reflexivity|].
  intros nb c E O st st' x Hnb Hc Hrun Hx.
  pose proof (every_cell _ handler_free_notebooks nb c Hnb Hc) as Hh.
  destruct c as [h|src]; simpl in *; [by apply elem_of_nil in Hx|].
  by apply (free_names_complete src O st st').
Qed.

(** The training cell, in a state that binds [trainer]. *)
Lemma cells_complete_only_with_their_names_witness :
  transformers_nb ∈ notebooks ∧ Code hf_train ∈ transformers_nb ∧
  run_cell (E:=Empty_set) (Code hf_train) no_fault trainer_state
    = (Ok tt, mkState (vars trainer_state) ∅ 10
                [EvCall 9 (VAttr (VObj 8) "train") [] []]) ∧
  "trainer" ∈ free_names (cell_source (Code hf_train)) ∧
  bound trainer_state "trainer".
Proof.
  cbv zeta.
  assert (Hc : Code hf_train ∈ transformers_nb)
    by (apply list_elem_of_In; do 22 right; left; reflexivity).
  assert (Hrun : run_cell (E:=Empty_set) (Code hf_train) no_fault trainer_state
                 = (Ok tt, mkState (vars trainer_state) ∅ 10
                             [EvCall 9 (VAttr (VObj 8) "train") [] []]))
    by (vm_compute; reflexivity).
  assert (Hx : "trainer" ∈ free_names (cell_source (Code hf_train)))
    by (apply list_elem_of_In; left; reflexivity).
  split; [exact transformers_in_notebooks|]. split; [exact Hc|].
  split; [exact Hrun|]. split; [exact Hx|].
  exact (proj2 cells_complete_only_with_their_names transformers_nb (Code hf_train)
           Empty_set no_fault _ _ "trainer" transformers_in_notebooks Hc Hrun Hx).
Defined.

(** ** The callback [tokenize_dataset], called *)

Lemma tokenize_inline_ok {E} (O : oracle E) (st : state) (batch tok : val) :
  vars st !! "tokenizer" = Some tok →
  is_callable tok = true →
  is_external batch = true →
  tokenize_inline batch O st
  = match O (trace st) (EvSubscript (next_id st) batch (VStr "text")) with
    | Some x =>
        (Raise (External x),
         mkState (vars st) (environ st) (S (next_id st))
           (trace st ++ [EvSubscript (next_id st) batch (VStr "text")]))
    | None =>
        let tr := trace st ++ [EvSubscript (next_id st) batch (VStr "text");
                               EvCall (S (next_id st)) tok [VObj (next_id st)] []] in
        match O (trace st ++ [EvSubscript (next_id st) batch (VStr "text")])
                (EvCall (S (next_id st)) tok [VObj (next_id st)] []) with
        | Some x =>
            (Raise (External x),
             mkState (vars st) (environ st) (S (S (next_id st))) tr)
        | None =>
            (Ok (VObj (S (next_id st))),
             mkState (vars st) (environ st) (S (S (next_id st))) tr)
        end
    end.
Proof.
  intros Htok Hcall Hext. unfold tokenize_inline, bind, lookup_var. rewrite Htok.
  unfold apply_subscript. rewrite Hext.
  unfold external, bind, fresh_id, interact, ret. cbn [vars environ next_id trace].
  destruct (O (trace st) _); [reflexivity|]. cbv beta iota zeta.
  destruct tok; try discriminate Hcall; simpl;
    unfold external, bind, fresh_id, interact, ret; cbn [vars environ next_id trace];
    destruct (O _ _); rewrite <- app_assoc; reflexivity.
Qed.





(** X6.  Where no global [tokenizer] is bound, [tokenize_dataset]
    raises [NameError] for [tokenizer] before it touches the batch: no
    event happens and the state is unchanged. *)
Theorem tokenize_dataset_needs_tokenizer (E : Type) (O : oracle E) (st : state)
    (batch : val) :
  vars st !! "tokenizer" = None →
  invoke tokenize_dataset_fn [batch] O st = (Raise (NameError "tokenizer"), st).
Proof.
  intros Htok. rewrite invoke_tokenize_dataset.
  unfold tokenize_inline, bind, lookup_var. by rewrite Htok.
Qed.

(** A state that binds [dataset] only. *)
Lemma tokenize_dataset_needs_tokenizer_witness :
  vars callback_state_no_tokenizer !! "tokenizer" = None ∧
  invoke (E:=Empty_set) tokenize_dataset_fn [VObj 7] no_fault callback_state_no_tokenizer
  = (Raise (NameError "tokenizer"), callback_state_no_tokenizer).
Proof.
  assert (Htok : vars callback_state_no_tokenizer !! "tokenizer" = None)
    by (vm_compute; reflexivity).
  split; [exact Htok|].
  exact (tokenize_dataset_needs_tokenizer Empty_set no_fault
           callback_state_no_tokenizer (VObj 7) Htok).
Defined.

Lemma run_without_fault {E} (nb : notebook) (O : oracle E) st0 st :
  forallb (admissible_cell true false) nb = true →
  run_notebook nb O st0 = (Ok tt, st) →
  run_notebook (E:=E) nb no_fault st0 = (Ok tt, st).
Proof.
  intros Hnb Hrun. destruct (run_notebook_steady (E:=E) nb Hnb) as [_ Ha].
  destruct (Ha O st0) as [Heq|[[x Hx] _]].
  - by rewrite <- Heq.
  - rewrite Hrun in Hx. discriminate Hx.
Qed.

(** X7.  When a run of the transformers notebook has reached the call
    of [dataset.map], whatever the libraries did, [tokenize_dataset] is
    defined and the tokenizer it calls on a batch is the object that
    [AutoTokenizer.from_pretrained("distilbert-base-uncased")]
    returned (object 2). *)
Theorem callback_uses_the_loaded_tokenizer (E : Type) (O : oracle E)
    (env0 : gmap string string) (st : state) (batch : val) :
  run_notebook transformers_until_map O (initial_state env0) = (Ok tt, st) →
  is_external batch = true →
  O (trace st) (EvSubscript 4 batch (VStr "text")) = None →
  O (trace st ++ [EvSubscript 4 batch (VStr "text")])
    (EvCall 5 (VObj 2) [VObj 4] []) = None →
  EvCall 2 (VAttr (VAttr (VModule "transformers") "AutoTokenizer") "from_pretrained")
    [VStr "distilbert-base-uncased"] [] ∈ trace st ∧
  vars st !! "tokenize_dataset" = Some (VFunc "tokenize_dataset") ∧
  invoke tokenize_dataset_fn [batch] O st
  = (Ok (VObj 5),
     mkState (vars st) (environ st) 6
       (trace st ++ [EvSubscript 4 batch (VStr "text");
                     EvCall 5 (VObj 2) [VObj 4] []])).
Proof.
  intros Hrun Hext HO1 HO2.
  apply run_without_fault in Hrun; [|vm_compute; reflexivity].
  assert (Hst : st = (run_notebook (E:=E) transformers_until_map no_fault
                        (initial_state env0)).2) by (by rewrite Hrun).
  assert (Hid : next_id st = 4%nat) by (rewrite Hst; vm_compute; reflexivity).
  assert (Htok : vars st !! "tokenizer" = Some (VObj 2))
    by (rewrite Hst; vm_compute; reflexivity).
  split; [rewrite Hst; apply list_elem_of_In; vm_compute; tauto|].
  split; [rewrite Hst; vm_compute; reflexivity|].
  rewrite invoke_tokenize_dataset, (tokenize_inline_ok O st batch (VObj 2))
    by done.
  rewrite Hid, HO1. cbv zeta. by rewrite HO2.
Qed.

(** The run without faults, called back on the dataset it loaded. *)
Lemma callback_uses_the_loaded_tokenizer_witness :
  let st := (run_notebook (E:=Empty_set) transformers_until_map no_fault
               (initial_state ∅)).2 in
  run_notebook (E:=Empty_set) transformers_until_map no_fault (initial_state ∅)
    = (Ok tt, st) ∧
  (invoke (E:=Empty_set) tokenize_dataset_fn [VObj 3] no_fault st).1 = Ok (VObj 5).
Proof.
  cbv zeta.
  assert (Hrun : run_notebook (E:=Empty_set) transformers_until_map no_fault (initial_state ∅)
                 = (Ok tt, (run_notebook (E:=Empty_set) transformers_until_map no_fault
                              (initial_state ∅)).2))
    by (vm_compute; reflexivity).
  split; [exact Hrun|].
  rewrite (proj2 (proj2 (callback_uses_the_loaded_tokenizer Empty_set no_fault ∅ _
                           (VObj 3) Hrun eq_refl eq_refl eq_refl))).
  reflexivity.
Defined.

(** ** The environment *)

Lemma credentials_set_idem env : credentials_set (credentials_set env) = credentials_set env.
Proof.
  unfold credentials_set. apply map_eq. intros k.
  rewrite !lookup_insert. repeat case_decide; congruence.
Qed.

Lemma log_model_set_idem env : log_model_set (log_model_set env) = log_model_set env.
Proof. unfold log_model_set. by rewrite insert_insert_eq. Qed.

Lemma credentials_log_model_comm env :
  credentials_set (log_model_set env) = log_model_set (credentials_set env).
Proof.
  unfold credentials_set, log_model_set. apply map_eq. intros k.
  rewrite !lookup_insert. repeat case_decide; congruence.
Qed.

Lemma run_credential_cell {E} (b : bool) (O : oracle E) st :
  (run_cell (credential_cell b) O st).1 = Ok tt ∧
  environ (run_cell (credential_cell b) O st).2
  = (if b then credentials_set else log_model_set) (environ st).
Proof.
  destruct b; simpl credential_cell;
    [rewrite run_hf_credentials | rewrite run_hf_log_model]; by split.
Qed.

Lemma elem_of_cons_ne {A} (x y : A) (l : list A) : x ≠ y → x ∈ y :: l ↔ x ∈ l.
Proof. intros Hne. rewrite elem_of_cons. tauto. Qed.

Lemma credential_cells_any_order {E} (order : list bool) (O : oracle E) st :
  (seqM run_cell (credential_cell <$> order) O st).1 = Ok tt ∧
  environ (seqM run_cell (credential_cell <$> order) O st).2
  = (if bool_decide (true ∈ order) then credentials_set else id)
      ((if bool_decide (false ∈ order) then log_model_set else id) (environ st)).
Proof.
  revert st. induction order as [|b order IH]; intros st; [by split|].
  rewrite fmap_cons. simpl seqM. unfold bind.
  destruct (run_credential_cell b O st) as [Hr He].
  destruct (run_cell (credential_cell b) O st) as [r st1]. simpl in Hr, He. subst r.
  destruct (IH st1) as [IHr IHe]. split; [exact IHr|]. rewrite IHe, He.
  destruct b.
  - rewrite (bool_decide_eq_true_2 (true ∈ true :: order)) by (apply elem_of_cons; by left).
    replace (bool_decide (false ∈ true :: order)) with (bool_decide (false ∈ order))
      by (symmetry; apply bool_decide_ext, elem_of_cons_ne; discriminate).
    repeat case_bool_decide; simpl;
      rewrite ?credentials_log_model_comm, ?credentials_set_idem; reflexivity.
  - rewrite (bool_decide_eq_true_2 (false ∈ false :: order)) by (apply elem_of_cons; by left).
    replace (bool_decide (true ∈ false :: order)) with (bool_decide (true ∈ order))
      by (symmetry; apply bool_decide_ext, elem_of_cons_ne; discriminate).
    repeat case_bool_decide; simpl; rewrite ?log_model_set_idem; reflexivity.
Qed.

(** X8.  However often and in whatever order the two credential cells
    are run, as long as each is run at least once, every run succeeds
    and the environment ends as after running them once in notebook
    order. *)
Theorem credential_cells_in_any_order (E : Type) (O : oracle E) (st : state)
    (order : list bool) :
  true ∈ order → false ∈ order →
  (seqM run_cell (credential_cell <$> order) O st).1 = Ok tt ∧
  environ (seqM run_cell (credential_cell <$> order) O st).2
  = log_model_set (credentials_set (environ st)).
Proof.
  intros Ht Hf. destruct (credential_cells_any_order order O st) as [Hr He].
  split; [exact Hr|]. rewrite He.
  rewrite !bool_decide_eq_true_2 by assumption.
  apply credentials_log_model_comm.
Qed.


(** The second cell, the first cell twice, the second cell again. *)
Lemma credential_cells_in_any_order_witness :
  true ∈ [false; true; true; false] ∧ false ∈ [false; true; true; false] ∧
  environ (seqM (E:=Empty_set) run_cell (credential_cell <$> [false; true; true; false])
             no_fault (initial_state ∅)).2
  = log_model_set (credentials_set ∅).
Proof.
  assert (Ht : true ∈ [false; true; true; false])
    by (apply list_elem_of_In; right; left; reflexivity).
  assert (Hf : false ∈ [false; true; true; false])
    by (apply list_elem_of_In; left; reflexivity).
  split; [exact Ht|]. split; [exact Hf|].
  exact (proj2 (credential_cells_in_any_order Empty_set no_fault (initial_state ∅)
                  _ Ht Hf)).
Defined.

(** X10.  Every run of the transformers notebook, from any state and
    whatever the libraries do, begins with the six assignments of the
    CLEARML variables: they are made before any shell command, import
    or library call. *)
Theorem credentials_precede_the_libraries (E : Type) (O : oracle E) (st : state) :
  trace st ++ credential_events `prefix_of` trace (run_notebook transformers_nb O st).2.
Proof.
  unfold run_notebook, transformers_nb.
  do 2 (rewrite (seqM_cons_ok _ _ _ O st st) by reflexivity).
  erewrite seqM_cons_ok; [|apply run_hf_credentials].
  erewrite seqM_cons_ok; [|apply run_hf_log_model].
  match goal with
  | |- _ `prefix_of` trace (seqM run_cell ?rest O ?s).2 =>
      change (seqM run_cell rest O s) with (run_notebook rest O s);
      destruct (run_notebook_steady (E:=E) rest ltac:(vm_compute; reflexivity)) as [Hg _];
      specialize (Hg O s)
  end.
  cbn [trace] in Hg. etrans; [|exact Hg]. by rewrite <- app_assoc.
Qed.

(** ** Data flow *)

(** X12.  In every run of the transformers notebook, whatever the
    libraries do: the object that [load_dataset] returns (3) is used by
    one event only, the call of its [map] method; both splits are
    taken from the object that [map] returns (4); and the call of
    [Trainer] receives these two splits (6 and 7), not the dataset as
    loaded. *)
Theorem trainer_gets_the_tokenized_dataset :
  (∀ env0,
     List.filter (λ ev, calls_name "load_dataset" ev || calls_name "map" ev
                        || is_subscript ev || calls_name "Trainer" ev)
       (trace (run_notebook (E:=Empty_set) transformers_nb no_fault (initial_state env0)).2)
     = [EvCall 3 (VAttr (VModule "datasets") "load_dataset") [VStr "rotten_tomatoes"] [];
        EvCall 4 (VAttr (VObj 3) "map") [VFunc "tokenize_dataset"] [("batched", VBool true)];
        EvSubscript 6 (VObj 4) (VStr "train");
        EvSubscript 7 (VObj 4) (VStr "test");
        EvCall 8 (VAttr (VModule "transformers") "Trainer") []
          [("model", VObj 0); ("args", VObj 1); ("train_dataset", VObj 6);
           ("eval_dataset", VObj 7); ("tokenizer", VObj 2); ("data_collator", VObj 5)]]) ∧
  (∀ (E : Type) (O : oracle E) env0 ev,
     ev ∈ trace (run_notebook transformers_nb O (initial_state env0)).2 →
     (event_uses 3 ev = true → calls_name "map" ev = true) ∧
     subscript_of 4 ev = true ∧
     (calls_name "Trainer" ev = true →
      event_uses 6 ev = true ∧ event_uses 7 ev = true ∧ event_uses 3 ev = false)).
Proof.
  split; [intros env0; vm_compute; reflexivity|].
  intros E O env0 ev Hev.
  pose proof (every_event (E:=E) dataset_flow_ok transformers_nb (initial_state env0)
                transformers_in_notebooks ltac:(vm_compute; reflexivity) O ev Hev) as H.
  unfold dataset_flow_ok in H.
  apply andb_prop in H as [H H3]. apply andb_prop in H as [H1 H2].
  split; [|split; [exact H2|]].
  - intros Hu. rewrite Hu in H1. exact H1.
  - intros Ht. rewrite Ht in H3. simpl in H3.
    apply andb_prop in H3 as [H3 Hn]. apply andb_prop in H3 as [H6 H7].
    apply negb_true_iff in Hn. by repeat split.
Qed.

(** The [Trainer] event of the run without faults. *)
Lemma trainer_gets_the_tokenized_dataset_witness :
  let ev := EvCall 8 (VAttr (VModule "transformers") "Trainer") []
              [("model", VObj 0); ("args", VObj 1); ("train_dataset", VObj 6);
               ("eval_dataset", VObj 7); ("tokenizer", VObj 2);
               ("data_collator", VObj 5)] in
  ev ∈ trace (run_notebook (E:=Empty_set) transformers_nb no_fault (initial_state ∅)).2 ∧
  calls_name "Trainer" ev = true ∧
  event_uses 6 ev = true ∧ event_uses 7 ev = true ∧ event_uses 3 ev = false.
Proof.
  cbv zeta.
  assert (Hev : EvCall 8 (VAttr (VModule "transformers") "Trainer") []
              [("model", VObj 0); ("args", VObj 1); ("train_dataset", VObj 6);
               ("eval_dataset", VObj 7); ("tokenizer", VObj 2);
               ("data_collator", VObj 5)]
            ∈ trace (run_notebook (E:=Empty_set) transformers_nb no_fault (initial_state ∅)).2)
    by (apply list_elem_of_In; vm_compute; tauto).
  split; [exact Hev|]. split; [reflexivity|].
  exact (proj2 (proj2 (proj2 trainer_gets_the_tokenized_dataset Empty_set no_fault ∅ _ Hev))
           eq_refl).
Defined.

Lemma plots_use_new_data_prefix (a b : list event) (last : nat) :
  plots_use_new_data last (a ++ b) = true → plots_use_new_data last a = true.
Proof.
  revert last. induction a as [|ev a IH]; intros last; simpl; [done|].
  destruct ev; try apply IH.
  destruct (in_list _ _); [|apply IH].
  intros H. apply andb_prop in H as [H1 H2]. rewrite H1. simpl. by apply IH.
Qed.

(** X13.  In every run of the matplotlib notebook, whatever the
    libraries do, each plot call draws only objects made after the
    plot call before it: although the cells reuse the names [x], [y],
    [m], [colors] and [area], no plot draws the data of an earlier
    plot. *)
Theorem plots_draw_new_data (E : Type) (O : oracle E) (env0 : gmap string string) :
  plots_use_new_data 0
    (trace (run_notebook matplotlib_nb O (initial_state env0)).2) = true.
Proof.
  destruct (run_notebook_steady (E:=E) matplotlib_nb ltac:(vm_compute; reflexivity))
    as [_ Ha].
  assert (H0 : plots_use_new_data 0
                 (trace (run_notebook (E:=E) matplotlib_nb no_fault (initial_state env0)).2)
               = true) by (vm_compute; reflexivity).
  destruct (Ha O (initial_state env0)) as [Heq|[_ [k Hk]]].
  - by rewrite Heq.
  - rewrite Hk in H0. by apply plots_use_new_data_prefix in H0.
Qed.

(** Two image plots of the same array are told apart from that. *)
Example stale_data_is_detected :
  plots_use_new_data 0
    [EvCall 1 (VAttr (VModule "numpy") "eye") [VInt 2] [];
     EvCall 2 (VAttr (VModule "matplotlib.pyplot") "imshow") [VObj 1] [];
     EvCall 3 (VAttr (VModule "matplotlib.pyplot") "imshow") [VObj 1] []] = false.
Proof. reflexivity. Qed.
